(** * SiteGuard API v2: the heuristic scanner and the sandbox rewriter

    A shallow embedding of [src/siteguard_api_v2/app.py] and the
    properties its specification states about it.

    Conventions of the embedding:
    - Python [int] is [Z]; Python [str] is [string] (a sequence of 8-bit
      characters, so [lower] and [strip] act on the ASCII range);
    - Python [set] constants are [gset string], the [WEIGHTS] dict is a
      [gmap string Z], an element's attribute dict is a [gmap string string];
    - a [for] loop that mutates [f] is a fold that passes the state along;
    - a call that may raise returns [option], [None] being the exception. *)

From Stdlib Require Import ZArith String Ascii List DecimalString Lia.
From stdpp Require Import base option gmap sets list strings.

Open Scope string_scope.
Open Scope list_scope.
Open Scope Z_scope.

(** ** Python string operations used by the scanner *)

Module PyStr.

(** [c.lower()] for one character: only [A]..[Z] change. *)
Definition lower_ascii (c : ascii) : ascii :=
  let n := nat_of_ascii c in
  if ((65 <=? n)%nat && (n <=? 90)%nat)%bool then ascii_of_nat (n + 32) else c.

(** [s.lower()] *)
Fixpoint lower (s : string) : string :=
  match s with
  | EmptyString => EmptyString
  | String c s' => String (lower_ascii c) (lower s')
  end.

(** [s.startswith(p)] *)
Definition startswith (s p : string) : bool := String.prefix p s.

(** [s.endswith(x)] *)
Definition endswith (s x : string) : bool :=
  ((String.length x <=? String.length s)%nat
   && String.eqb (substring (String.length s - String.length x) (String.length x) s) x)%bool.

(** [sub in s] *)
Fixpoint contains (sub s : string) : bool :=
  (String.prefix sub s
   || match s with
      | EmptyString => false
      | String _ s' => contains sub s'
      end)%bool.

(** The characters [str.strip()] removes, within the ASCII range:
    tab, newline, vertical tab, form feed, carriage return, the four
    separators 28..31 and the space. *)
Definition isspace (c : ascii) : bool :=
  let n := nat_of_ascii c in
  (((9 <=? n)%nat && (n <=? 13)%nat) || ((28 <=? n)%nat && (n <=? 32)%nat))%bool.

Fixpoint lstrip (s : string) : string :=
  match s with
  | EmptyString => EmptyString
  | String c s' => if isspace c then lstrip s' else s
  end.

(** [rstrip] keeps a character when it is not a space or when something
    that is kept follows it. *)
Fixpoint rstrip (s : string) : string :=
  match s with
  | EmptyString => EmptyString
  | String c s' =>
      match rstrip s' with
      | EmptyString => if isspace c then EmptyString else String c EmptyString
      | r => String c r
      end
  end.

(** [s.strip()] *)
Definition strip (s : string) : string := rstrip (lstrip s).

(** [str(n)] and the [{w}] of an f-string, for an integer. *)
Definition str_of_int (n : Z) : string := NilZero.string_of_int (Z.to_int n).

End PyStr.

(** ** Constant tables (lines 25-37) *)

Definition WEIGHTS : gmap string Z :=
  list_to_map
    [ ("mixedContent", 25); ("metaRefresh", 10); ("manyInlineHandlers", 10);
      ("suspiciousInlineJS", 20); ("dataURIScripts", 10); ("shortenerLinks", 15);
      ("ipLinks", 10); ("suspiciousTLDs", 10); ("execDownloads", 20);
      ("formsToHTTP", 20); ("hiddenIframes", 10); ("thirdPartyScripts", 10);
      ("onBeforeUnload", 10); ("fingerprintingAPIs", 10); ("base64InLinks", 10) ].

Definition SHORTENERS : gset string :=
  list_to_set
    ["bit.ly"; "t.co"; "goo.gl"; "tinyurl.com"; "ow.ly"; "buff.ly"; "cutt.ly";
     "is.gd"; "adf.ly"].

Definition DL_EXTS : list string :=
  [".exe"; ".apk"; ".msi"; ".bat"; ".cmd"; ".scr"; ".zip"; ".rar"; ".js"; ".jar"; ".7z"].

Definition INLINE_EVENTS : gset string :=
  list_to_set
    ["onclick"; "onload"; "onerror"; "onmouseover"; "onfocus"; "onmouseleave";
     "onmouseenter"; "onkeydown"; "onkeyup"; "onbeforeunload"].

Definition SUSP_TLDS : gset string :=
  list_to_set
    [".zip"; ".click"; ".country"; ".gq"; ".tk"; ".ml"; ".ga"; ".cf"; ".top";
     ".work"; ".xyz"].

(** ** The feature vector (lines 51-57)

    [f] is created with these fifteen keys and no key is ever added or
    removed, so the dict is a record of its values. *)

Record features : Type := mkFeatures {
  mixedContent : bool;
  metaRefresh : bool;
  inlineHandlers : Z;
  suspiciousInlineJS : Z;
  dataURIScripts : Z;
  shortenerLinks : Z;
  ipLinks : Z;
  suspiciousTLDs : Z;
  execDownloads : list string;
  formsToHTTP : Z;
  hiddenIframes : Z;
  thirdPartyScripts : Z;
  onBeforeUnload : bool;
  fingerprintingAPIs : Z;
  base64InLinks : Z
}.

(** The initial value of [f]. *)
Definition f0 : features :=
  mkFeatures false false 0 0 0 0 0 0 [] 0 0 0 false 0 0.

(** ** The scorer (lines 118-142) *)

(** The state [add] mutates: the running total [s] and the list [issues]. *)
Definition score_state : Type := Z * list string.

(** [add(msg, w)]: [s += w] and [issues.append(f"{msg} (+{w})")]. *)
Definition add (msg : string) (w : Z) (st : score_state) : score_state :=
  (st.1 + w, st.2 ++ [msg +:+ " (+" +:+ PyStr.str_of_int w +:+ ")"]).

(** [if c: add(msg, w)] *)
Definition when_add (c : bool) (msg : string) (w : Z) (st : score_state) : score_state :=
  if c then add msg w st else st.

(** The fifteen conditionals of lines 125-139, in program order. *)
Definition score_rules (f : features) (st : score_state) : score_state :=
  let st := when_add (mixedContent f) "Mixed content on HTTPS" (WEIGHTS !!! "mixedContent") st in
  let st := when_add (metaRefresh f) "Meta refresh redirect" (WEIGHTS !!! "metaRefresh") st in
  let st := when_add (20 <? inlineHandlers f) "Many inline event handlers" (WEIGHTS !!! "manyInlineHandlers") st in
  let st := when_add (0 <? suspiciousInlineJS f) "Suspicious inline JS (eval/new Function/atob)" (WEIGHTS !!! "suspiciousInlineJS") st in
  let st := when_add (0 <? dataURIScripts f) "Data-URI scripts" (WEIGHTS !!! "dataURIScripts") st in
  let st := when_add (3 <? shortenerLinks f) "Multiple shortener links" (WEIGHTS !!! "shortenerLinks") st in
  let st := when_add (0 <? ipLinks f) "Links to raw IPs" (WEIGHTS !!! "ipLinks") st in
  let st := when_add (0 <? suspiciousTLDs f) "Suspicious TLDs used" (WEIGHTS !!! "suspiciousTLDs") st in
  let st := when_add (0 <? Z.of_nat (length (execDownloads f))) "Executable/archived downloads present" (WEIGHTS !!! "execDownloads") st in
  let st := when_add (0 <? formsToHTTP f) "Forms submit to HTTP" (WEIGHTS !!! "formsToHTTP") st in
  let st := when_add (0 <? hiddenIframes f) "Hidden/zero-size iframes" (WEIGHTS !!! "hiddenIframes") st in
  let st := when_add (10 <? thirdPartyScripts f) "High number of third-party scripts" (WEIGHTS !!! "thirdPartyScripts") st in
  let st := when_add (onBeforeUnload f) "onbeforeunload trap" (WEIGHTS !!! "onBeforeUnload") st in
  let st := when_add (0 <? fingerprintingAPIs f) "Fingerprinting APIs present" (WEIGHTS !!! "fingerprintingAPIs") st in
  let st := when_add (0 <? base64InLinks f) "Base64 found in links" (WEIGHTS !!! "base64InLinks") st in
  st.

(** Line 141. *)
Definition level_of (s : Z) : string :=
  if 70 <=? s then "High" else if 40 <=? s then "Medium" else "Low".

(** [score_features(f)] returns [(s, level, issues)]. *)
Definition score_features (f : features) : Z * string * list string :=
  let st := score_rules f (0, []) in
  let s := Z.min st.1 100 in
  (s, level_of s, st.2).

Definition score (f : features) : Z := (score_features f).1.1.
Definition level (f : features) : string := (score_features f).1.2.
Definition issues (f : features) : list string := (score_features f).2.

(** ** The parsed document

    What [BeautifulSoup(html, "html.parser")] builds: a forest of tags and
    text nodes.  [attrs] is the tag's attribute dict; the attributes the
    program reads ([src], [href], [http-equiv], [download] and the handler
    names) hold one string each. *)

#[local] Unset Elimination Schemes.
Inductive node : Type :=
| Tag (name : string) (attrs : gmap string string) (contents : list node)
| NavigableString (text : string).
#[local] Set Elimination Schemes.

(** Induction over a document tree: the contents of a tag satisfy [P]. *)
Fixpoint node_ind (P : node → Prop)
    (HTag : ∀ nm a cs, Forall P cs → P (Tag nm a cs))
    (HStr : ∀ t, P (NavigableString t)) (n : node) : P n :=
  match n with
  | Tag nm a cs =>
      HTag nm a cs
        ((fix go (l : list node) : Forall P l :=
            match l with
            | [] => @List.Forall_nil node P
            | c :: r => @List.Forall_cons node P c r (node_ind P HTag HStr c) (go r)
            end) cs)
  | NavigableString t => HStr t
  end.

(** The [BeautifulSoup] object: the top-level contents. *)
Definition soup : Type := list node.

Module Dom.

Definition name (el : node) : string :=
  match el with Tag n _ _ => n | NavigableString _ => "" end.

Definition attrs (el : node) : gmap string string :=
  match el with Tag _ a _ => a | NavigableString _ => ∅ end.

(** [el.get(k)] *)
Definition get (el : node) (k : string) : option string := attrs el !! k.

(** [el.get(k, d)] *)
Definition get_default (el : node) (k d : string) : string := default d (attrs el !! k).

(** [el.has_attr(k)] *)
Definition has_attr (el : node) (k : string) : bool := bool_decide (k ∈ dom (attrs el)).

(** A tag followed by the tags below it, in document order. *)
Fixpoint tags_of (n : node) : list node :=
  match n with
  | Tag _ _ cs => n :: flat_map tags_of cs
  | NavigableString _ => []
  end.

(** [soup.find_all(True)]: every tag of the document, in document order. *)
Definition find_all (d : soup) : list node := flat_map tags_of d.

(** [soup.select(sel)], the selector given as a decidable test on a tag. *)
Definition select (sel : node → bool) (d : soup) : list node :=
  filter (λ el, sel el = true) (find_all d).

(** [soup.select_one(sel)] *)
Definition select_one (sel : node → bool) (d : soup) : option node :=
  head (select sel d).

(** ["[src],[href]"] *)
Definition sel_src_or_href (el : node) : bool := has_attr el "src" || has_attr el "href".

(** ['meta[http-equiv="refresh"], meta[http-equiv="Refresh"]']: a CSS
    attribute selector compares the value exactly, case included. *)
Definition sel_meta_refresh (el : node) : bool :=
  bool_decide (name el = "meta")
  && (bool_decide (get el "http-equiv" = Some "refresh")
      || bool_decide (get el "http-equiv" = Some "Refresh")).

(** ["a[href]"] *)
Definition sel_a_href (el : node) : bool :=
  bool_decide (name el = "a") && has_attr el "href".

End Dom.

(** ** Updates of single keys of [f] *)

Definition set_mixedContent (b : bool) (f : features) : features :=
  mkFeatures b (metaRefresh f) (inlineHandlers f) (suspiciousInlineJS f)
    (dataURIScripts f) (shortenerLinks f) (ipLinks f) (suspiciousTLDs f)
    (execDownloads f) (formsToHTTP f) (hiddenIframes f) (thirdPartyScripts f)
    (onBeforeUnload f) (fingerprintingAPIs f) (base64InLinks f).

Definition set_metaRefresh (b : bool) (f : features) : features :=
  mkFeatures (mixedContent f) b (inlineHandlers f) (suspiciousInlineJS f)
    (dataURIScripts f) (shortenerLinks f) (ipLinks f) (suspiciousTLDs f)
    (execDownloads f) (formsToHTTP f) (hiddenIframes f) (thirdPartyScripts f)
    (onBeforeUnload f) (fingerprintingAPIs f) (base64InLinks f).

Definition set_inlineHandlers (n : Z) (f : features) : features :=
  mkFeatures (mixedContent f) (metaRefresh f) n (suspiciousInlineJS f)
    (dataURIScripts f) (shortenerLinks f) (ipLinks f) (suspiciousTLDs f)
    (execDownloads f) (formsToHTTP f) (hiddenIframes f) (thirdPartyScripts f)
    (onBeforeUnload f) (fingerprintingAPIs f) (base64InLinks f).

Definition set_shortenerLinks (n : Z) (f : features) : features :=
  mkFeatures (mixedContent f) (metaRefresh f) (inlineHandlers f) (suspiciousInlineJS f)
    (dataURIScripts f) n (ipLinks f) (suspiciousTLDs f)
    (execDownloads f) (formsToHTTP f) (hiddenIframes f) (thirdPartyScripts f)
    (onBeforeUnload f) (fingerprintingAPIs f) (base64InLinks f).

Definition set_ipLinks (n : Z) (f : features) : features :=
  mkFeatures (mixedContent f) (metaRefresh f) (inlineHandlers f) (suspiciousInlineJS f)
    (dataURIScripts f) (shortenerLinks f) n (suspiciousTLDs f)
    (execDownloads f) (formsToHTTP f) (hiddenIframes f) (thirdPartyScripts f)
    (onBeforeUnload f) (fingerprintingAPIs f) (base64InLinks f).

Definition set_suspiciousTLDs (n : Z) (f : features) : features :=
  mkFeatures (mixedContent f) (metaRefresh f) (inlineHandlers f) (suspiciousInlineJS f)
    (dataURIScripts f) (shortenerLinks f) (ipLinks f) n
    (execDownloads f) (formsToHTTP f) (hiddenIframes f) (thirdPartyScripts f)
    (onBeforeUnload f) (fingerprintingAPIs f) (base64InLinks f).

Definition set_execDownloads (l : list string) (f : features) : features :=
  mkFeatures (mixedContent f) (metaRefresh f) (inlineHandlers f) (suspiciousInlineJS f)
    (dataURIScripts f) (shortenerLinks f) (ipLinks f) (suspiciousTLDs f)
    l (formsToHTTP f) (hiddenIframes f) (thirdPartyScripts f)
    (onBeforeUnload f) (fingerprintingAPIs f) (base64InLinks f).

Definition set_base64InLinks (n : Z) (f : features) : features :=
  mkFeatures (mixedContent f) (metaRefresh f) (inlineHandlers f) (suspiciousInlineJS f)
    (dataURIScripts f) (shortenerLinks f) (ipLinks f) (suspiciousTLDs f)
    (execDownloads f) (formsToHTTP f) (hiddenIframes f) (thirdPartyScripts f)
    (onBeforeUnload f) (fingerprintingAPIs f) n.

(** ** The feature extractor (lines 47-116), the blocks the properties
    below are about *)

(** [urlparse(u)]: the parts of the result the program reads. *)
Record ParseResult : Type := mkParseResult {
  scheme : string;
  netloc : string;
  hostname : option string
}.

(** [re.match(r"^\d{1,3}(\.\d{1,3}){3}$", host)] (line 87): four runs of one
    to three digits separated by dots; [$] also matches before one final
    newline. The digits are the ASCII ones. *)
Module IPv4.

Definition is_digit (c : ascii) : bool :=
  let n := nat_of_ascii c in ((48 <=? n)%nat && (n <=? 57)%nat)%bool.

(** The leading run of digits of [s]: its length and what follows it. *)
Fixpoint digits (s : string) : nat * string :=
  match s with
  | String c s' => if is_digit c then let r := digits s' in (S r.1, r.2) else (O, s)
  | EmptyString => (O, s)
  end.

(** [\d{1,3}] followed by something that is not a digit. *)
Definition group (s : string) : option string :=
  let r := digits s in
  if ((1 <=? r.1)%nat && (r.1 <=? 3)%nat)%bool then Some r.2 else None.

(** [\.\d{1,3}] *)
Definition dot_group (s : string) : option string :=
  match s with
  | String "."%char s' => group s'
  | _ => None
  end.

Definition matches (host : string) : bool :=
  match r1 ← group host; r2 ← dot_group r1; r3 ← dot_group r2; dot_group r3 with
  | Some rest => bool_decide (rest = "") || bool_decide (rest = String "010"%char "")
  | None => false
  end.

End IPv4.

(** Lines 60-64, for one element: [v = el.get("src") or el.get("href")] and
    the test [v and v.strip().lower().startswith("http://")]. *)
Definition mixed_value (el : node) : option string :=
  match Dom.get el "src" with
  | Some s => if bool_decide (s = "") then Dom.get el "href" else Some s
  | None => Dom.get el "href"
  end.

Definition mixed_hit (el : node) : bool :=
  match mixed_value el with
  | Some v => negb (bool_decide (v = ""))
              && PyStr.startswith (PyStr.lower (PyStr.strip v)) "http://"
  | None => false
  end.

(** The loop of lines 60-64: the first hit sets the flag and breaks. *)
Fixpoint mixed_loop (els : list node) (f : features) : features :=
  match els with
  | [] => f
  | el :: rest => if mixed_hit el then set_mixedContent true f else mixed_loop rest f
  end.

(** Lines 50 and 59-64. *)
Definition collect_mixedContent (page_url : string) (d : soup) (f : features) : features :=
  let https := PyStr.startswith (PyStr.lower page_url) "https:" in
  if https then mixed_loop (Dom.select Dom.sel_src_or_href d) f else f.

(** Lines 66-67. A tag is always truthy, so the test is on [None]. *)
Definition collect_metaRefresh (d : soup) (f : features) : features :=
  match Dom.select_one Dom.sel_meta_refresh d with
  | Some _ => set_metaRefresh true f
  | None => f
  end.

(** Lines 70-72, for one element. *)
Definition inline_inner (el : node) (f : features) : features :=
  fold_left
    (λ f a, if Dom.has_attr el a then set_inlineHandlers (inlineHandlers f + 1) f else f)
    (elements INLINE_EVENTS) f.

(** Lines 69-72. *)
Definition collect_inlineHandlers (d : soup) (f : features) : features :=
  fold_left (λ f el, inline_inner el f) (Dom.find_all d) f.

(** Lines 86-91: the five checks on one resolved anchor. [download] is
    [a.has_attr("download")]. *)
Definition link_checks (download : bool) (href host : string) (f : features) : features :=
  let f := if bool_decide (host ∈ SHORTENERS)
           then set_shortenerLinks (shortenerLinks f + 1) f else f in
  let f := if IPv4.matches host
           then set_ipLinks (ipLinks f + 1) f else f in
  let f := if existsb (λ t, PyStr.endswith host t) (elements SUSP_TLDS)
           then set_suspiciousTLDs (suspiciousTLDs f + 1) f else f in
  let f := if PyStr.contains "base64," (PyStr.lower href)
           then set_base64InLinks (base64InLinks f + 1) f else f in
  let f := if download || existsb (λ x, PyStr.endswith (PyStr.lower href) x) DL_EXTS
           then set_execDownloads (execDownloads f ++ [href]) f else f in
  f.

Section Extractor.

(** [urllib.parse.urljoin] and [urllib.parse.urlparse]; [None] is a raised
    exception. *)
Variable urljoin : string → string → option string.
Variable urlparse : string → option ParseResult.

(** Lines 41-45: the exception of [urljoin] becomes [None]. *)
Definition normalize_url (base value : string) : option string := urljoin base value.

(** Lines 82-91 for one anchor. The outer [None] is an exception of
    [urlparse], which nothing catches. *)
Definition link_step (page_url : string) (a : node) (f : features) : option features :=
  match normalize_url page_url (Dom.get_default a "href" "") with
  | None => Some f
  | Some href =>
      if bool_decide (href = "") then Some f
      else
        p ← urlparse href;
        let host := default "" (hostname p) in
        Some (link_checks (Dom.has_attr a "download") href host f)
  end.

(** Lines 81-91. *)
Fixpoint links_loop (page_url : string) (anchors : list node) (f : features)
    : option features :=
  match anchors with
  | [] => Some f
  | a :: rest => f' ← link_step page_url a f; links_loop page_url rest f'
  end.

Definition collect_links (page_url : string) (d : soup) (f : features) : option features :=
  links_loop page_url (Dom.select Dom.sel_a_href d) f.

End Extractor.

(** ** The sandbox rewriter (lines 172-186) *)

Module Rewrite.

(** [soup.head.insert(0, b)] when the document has a [head]: [b] becomes
    the first child of the first [head] tag in document order. [None] when
    there is no [head] tag ([soup.head] is [None]). *)
Fixpoint insert_in_head (b : node) (n : node) : option node :=
  match n with
  | Tag nm a cs =>
      if bool_decide (nm = "head") then Some (Tag nm a (b :: cs))
      else
        Tag nm a <$>
          (fix go (l : list node) : option (list node) :=
             match l with
             | [] => None
             | c :: r =>
                 match insert_in_head b c with
                 | Some c' => Some (c' :: r)
                 | None => cons c <$> go r
                 end
             end) cs
  | NavigableString _ => None
  end.

Fixpoint insert_in_first_head (b : node) (d : soup) : option soup :=
  match d with
  | [] => None
  | c :: r =>
      match insert_in_head b c with
      | Some c' => Some (c' :: r)
      | None => cons c <$> insert_in_first_head b r
      end
  end.

(** Lines 175-179. Without a [head], a new one is put first in the
    document and receives the [base] tag. *)
Definition add_base (url : string) (d : soup) : soup :=
  let base := Tag "base" {["href" := url]} [] in
  match insert_in_first_head base d with
  | Some d' => d'
  | None => Tag "head" ∅ [base] :: d
  end.

(** The test of line 183. *)
Definition is_csp_meta (el : node) : bool :=
  bool_decide (Dom.name el = "meta")
  && bool_decide (PyStr.lower (Dom.get_default el "http-equiv" "") = "content-security-policy").

(** Lines 182-184: every [meta] tag that passes the test is removed with
    what it contains. *)
Fixpoint remove_csp (n : node) : list node :=
  match n with
  | Tag nm a cs =>
      if is_csp_meta n then [] else [Tag nm a (flat_map remove_csp cs)]
  | NavigableString _ => [n]
  end.

Definition remove_csp_all (d : soup) : soup := flat_map remove_csp d.

End Rewrite.

Section Sandbox.

(** [BeautifulSoup(html, "html.parser")], [None] when the parser raises,
    and [str(soup)]. *)
Variable parse : string → option soup.
Variable serialize : soup → string.


End Sandbox.

(** ** The scorer as the specification describes it

    Section 4.3 and the design notes of the specification speak of a static
    ordered table of heuristic rules, each a trigger predicate, a fixed
    weight and a message. [RuleTable] is that description; the theorems
    below compare it with [score_features], which is the code. *)

Module RuleTable.

Inductive rule : Type :=
| MixedContent | MetaRefresh | ManyInlineHandlers | SuspiciousInlineJS
| DataURIScripts | ShortenerLinks | IpLinks | SuspiciousTLDs | ExecDownloads
| FormsToHTTP | HiddenIframes | ThirdPartyScripts | OnBeforeUnload
| FingerprintingAPIs | Base64InLinks.

#[global] Instance rule_eq_dec : EqDecision rule.
Proof. solve_decision. Defined.

(** mixedContent, metaRefresh, inlineHandlers>20, suspiciousInlineJS>0,
    dataURIScripts>0, shortenerLinks>3, ipLinks>0, suspiciousTLDs>0,
    execDownloads non-empty, formsToHTTP>0, hiddenIframes>0,
    thirdPartyScripts>10, onBeforeUnload, fingerprintingAPIs>0,
    base64InLinks>0. *)
Definition declaration_order : list rule :=
  [ MixedContent; MetaRefresh; ManyInlineHandlers; SuspiciousInlineJS;
    DataURIScripts; ShortenerLinks; IpLinks; SuspiciousTLDs; ExecDownloads;
    FormsToHTTP; HiddenIframes; ThirdPartyScripts; OnBeforeUnload;
    FingerprintingAPIs; Base64InLinks ].

Definition triggered (r : rule) (f : features) : bool :=
  match r with
  | MixedContent => mixedContent f
  | MetaRefresh => metaRefresh f
  | ManyInlineHandlers => 20 <? inlineHandlers f
  | SuspiciousInlineJS => 0 <? suspiciousInlineJS f
  | DataURIScripts => 0 <? dataURIScripts f
  | ShortenerLinks => 3 <? shortenerLinks f
  | IpLinks => 0 <? ipLinks f
  | SuspiciousTLDs => 0 <? suspiciousTLDs f
  | ExecDownloads => negb (bool_decide (execDownloads f = []))
  | FormsToHTTP => 0 <? formsToHTTP f
  | HiddenIframes => 0 <? hiddenIframes f
  | ThirdPartyScripts => 10 <? thirdPartyScripts f
  | OnBeforeUnload => onBeforeUnload f
  | FingerprintingAPIs => 0 <? fingerprintingAPIs f
  | Base64InLinks => 0 <? base64InLinks f
  end.

(** The key of the rule in the weight table. *)
Definition weight_key (r : rule) : string :=
  match r with
  | MixedContent => "mixedContent"
  | MetaRefresh => "metaRefresh"
  | ManyInlineHandlers => "manyInlineHandlers"
  | SuspiciousInlineJS => "suspiciousInlineJS"
  | DataURIScripts => "dataURIScripts"
  | ShortenerLinks => "shortenerLinks"
  | IpLinks => "ipLinks"
  | SuspiciousTLDs => "suspiciousTLDs"
  | ExecDownloads => "execDownloads"
  | FormsToHTTP => "formsToHTTP"
  | HiddenIframes => "hiddenIframes"
  | ThirdPartyScripts => "thirdPartyScripts"
  | OnBeforeUnload => "onBeforeUnload"
  | FingerprintingAPIs => "fingerprintingAPIs"
  | Base64InLinks => "base64InLinks"
  end.

Definition label (r : rule) : string :=
  match r with
  | MixedContent => "Mixed content on HTTPS"
  | MetaRefresh => "Meta refresh redirect"
  | ManyInlineHandlers => "Many inline event handlers"
  | SuspiciousInlineJS => "Suspicious inline JS (eval/new Function/atob)"
  | DataURIScripts => "Data-URI scripts"
  | ShortenerLinks => "Multiple shortener links"
  | IpLinks => "Links to raw IPs"
  | SuspiciousTLDs => "Suspicious TLDs used"
  | ExecDownloads => "Executable/archived downloads present"
  | FormsToHTTP => "Forms submit to HTTP"
  | HiddenIframes => "Hidden/zero-size iframes"
  | ThirdPartyScripts => "High number of third-party scripts"
  | OnBeforeUnload => "onbeforeunload trap"
  | FingerprintingAPIs => "Fingerprinting APIs present"
  | Base64InLinks => "Base64 found in links"
  end.

Definition weight (r : rule) : Z := WEIGHTS !!! weight_key r.

(** The finding of a rule: its label with its weight inline. *)
Definition finding (r : rule) : string :=
  label r +:+ " (+" +:+ PyStr.str_of_int (weight r) +:+ ")".

(** Which rules fired: all the scorer needs to know of a vector. *)
Definition triggers (f : features) : rule → bool := λ r, triggered r f.

(** Sum of the weights of the rules of [rs] that fired. *)
Fixpoint total (t : rule → bool) (rs : list rule) : Z :=
  match rs with
  | [] => 0
  | r :: rs' => (if t r then weight r else 0) + total t rs'
  end.

(** Findings of the rules of [rs] that fired, in the order of [rs]. *)
Definition findings (t : rule → bool) (rs : list rule) : list string :=
  finding <$> filter (λ r, t r = true) rs.

(** The score result the table gives for a trigger assignment. *)
Definition table_score (t : rule → bool) : Z * string * list string :=
  let s := Z.min (total t declaration_order) 100 in
  (s, level_of s, findings t declaration_order).

(** One rule after the other on the state of the scorer. *)
Definition run (t : rule → bool) (rs : list rule) (st : score_state) : score_state :=
  fold_left (λ st r, when_add (t r) (label r) (weight r) st) rs st.

End RuleTable.

(** How often a finding occurs in a list of issues. *)
Definition occurrences (s : string) (l : list string) : nat :=
  length (filter (λ x, x = s) l).

(** The meta-refresh test as the specification words it: some [meta] tag
    has an [http-equiv] value equal to "refresh" when case is ignored. *)
Definition has_meta_refresh_ci (d : soup) : bool :=
  existsb
    (λ el, bool_decide (Dom.name el = "meta")
           && bool_decide (PyStr.lower <$> Dom.get el "http-equiv" = Some "refresh"))
    (Dom.find_all d).

(** ** Instances of the library functions, to run the model on examples *)

Module Examples.


(** [urljoin] on absolute links: the link itself. *)
Definition urljoin_abs : string → string → option string := λ _ value, Some value.

(** [urlparse] on the URLs of the examples. *)
Definition urlparse_table (u : string) : option ParseResult :=
  if bool_decide (u = "http://evil.zip")
  then Some (mkParseResult "http" "evil.zip" (Some "evil.zip"))
  else if bool_decide (u = "http://evil.zip/a")
  then Some (mkParseResult "http" "evil.zip" (Some "evil.zip"))
  else None.

(** [<a href="http://evil.zip">x</a>] *)
Definition zip_anchor : soup :=
  [ Tag "a" {[ "href" := "http://evil.zip" ]} [ NavigableString "x" ] ].


(** [<meta http-equiv="REFRESH" content="0;url=http://example.com/">] *)
Definition meta_REFRESH : soup :=
  [ Tag "meta" {[ "http-equiv" := "REFRESH"; "content" := "0;url=http://example.com/" ]} [] ].


(** [<html><head><meta http-equiv="Content-Security-Policy" content="x">
    <title>t</title></head><body></body></html>] *)
Definition csp_doc : soup :=
  [ Tag "html" ∅
      [ Tag "head" ∅
          [ Tag "meta" {[ "http-equiv" := "Content-Security-Policy"; "content" := "x" ]} [];
            Tag "title" ∅ [ NavigableString "t" ] ];
        Tag "body" ∅ [] ] ].

(** [<div onclick="a()" onload="b()" title="t">x</div><p onkeyup="c()"></p>] *)
Definition handlers_doc : soup :=
  [ Tag "div" {[ "onclick" := "a()"; "onload" := "b()"; "title" := "t" ]}
      [ NavigableString "x" ];
    Tag "p" {[ "onkeyup" := "c()" ]} [] ].

End Examples.

(** ** The rest of the feature extractor *)

Definition set_suspiciousInlineJS (n : Z) (f : features) : features :=
  mkFeatures (mixedContent f) (metaRefresh f) (inlineHandlers f) n
    (dataURIScripts f) (shortenerLinks f) (ipLinks f) (suspiciousTLDs f)
    (execDownloads f) (formsToHTTP f) (hiddenIframes f) (thirdPartyScripts f)
    (onBeforeUnload f) (fingerprintingAPIs f) (base64InLinks f).

Definition set_dataURIScripts (n : Z) (f : features) : features :=
  mkFeatures (mixedContent f) (metaRefresh f) (inlineHandlers f) (suspiciousInlineJS f)
    n (shortenerLinks f) (ipLinks f) (suspiciousTLDs f)
    (execDownloads f) (formsToHTTP f) (hiddenIframes f) (thirdPartyScripts f)
    (onBeforeUnload f) (fingerprintingAPIs f) (base64InLinks f).

Definition set_formsToHTTP (n : Z) (f : features) : features :=
  mkFeatures (mixedContent f) (metaRefresh f) (inlineHandlers f) (suspiciousInlineJS f)
    (dataURIScripts f) (shortenerLinks f) (ipLinks f) (suspiciousTLDs f)
    (execDownloads f) n (hiddenIframes f) (thirdPartyScripts f)
    (onBeforeUnload f) (fingerprintingAPIs f) (base64InLinks f).

Definition set_hiddenIframes (n : Z) (f : features) : features :=
  mkFeatures (mixedContent f) (metaRefresh f) (inlineHandlers f) (suspiciousInlineJS f)
    (dataURIScripts f) (shortenerLinks f) (ipLinks f) (suspiciousTLDs f)
    (execDownloads f) (formsToHTTP f) n (thirdPartyScripts f)
    (onBeforeUnload f) (fingerprintingAPIs f) (base64InLinks f).

Definition set_thirdPartyScripts (n : Z) (f : features) : features :=
  mkFeatures (mixedContent f) (metaRefresh f) (inlineHandlers f) (suspiciousInlineJS f)
    (dataURIScripts f) (shortenerLinks f) (ipLinks f) (suspiciousTLDs f)
    (execDownloads f) (formsToHTTP f) (hiddenIframes f) n
    (onBeforeUnload f) (fingerprintingAPIs f) (base64InLinks f).

Definition set_onBeforeUnload (b : bool) (f : features) : features :=
  mkFeatures (mixedContent f) (metaRefresh f) (inlineHandlers f) (suspiciousInlineJS f)
    (dataURIScripts f) (shortenerLinks f) (ipLinks f) (suspiciousTLDs f)
    (execDownloads f) (formsToHTTP f) (hiddenIframes f) (thirdPartyScripts f)
    b (fingerprintingAPIs f) (base64InLinks f).

Definition set_fingerprintingAPIs (n : Z) (f : features) : features :=
  mkFeatures (mixedContent f) (metaRefresh f) (inlineHandlers f) (suspiciousInlineJS f)
    (dataURIScripts f) (shortenerLinks f) (ipLinks f) (suspiciousTLDs f)
    (execDownloads f) (formsToHTTP f) (hiddenIframes f) (thirdPartyScripts f)
    (onBeforeUnload f) n (base64InLinks f).

(** [soup.find_all(nm)]: the tags of that name, in document order. *)
Definition find_all_named (nm : string) (d : soup) : list node :=
  filter (λ el, Dom.name el = nm) (Dom.find_all d).

(** [el.get_text()]: the strings below a tag, joined in document order. *)
Fixpoint get_text (n : node) : string :=
  match n with
  | Tag _ _ cs => foldr (λ c acc, get_text c +:+ acc) "" cs
  | NavigableString t => t
  end.

(** [susp_re.search(txt)] (line 74). The pattern is a choice of four
    literals and [re.I] ignores case, so the lowered text is searched for
    the lowered literals. *)
Definition susp_re_search (txt : string) : bool :=
  let t := PyStr.lower txt in
  PyStr.contains "eval(" t || PyStr.contains "new function(" t
  || PyStr.contains "document.write(" t || PyStr.contains "atob(" t.

(** [re.search(r"data:\s*text/javascript", txt, re.I)] (line 79), on the
    lowered text: "data:", any run of white space, "text/javascript". *)
Fixpoint data_uri_at (t : string) : bool :=
  (PyStr.startswith t "data:"
   && PyStr.startswith (PyStr.lstrip (String.substring 5 (String.length t - 5) t))
        "text/javascript")
  || match t with
     | EmptyString => false
     | String _ t' => data_uri_at t'
     end.

Definition data_uri_search (txt : string) : bool := data_uri_at (PyStr.lower txt).

(** [not s.get("src")] (line 76): no [src], or an empty one. *)
Definition is_inline_script (s : node) : bool :=
  match Dom.get s "src" with
  | Some v => bool_decide (v = "")
  | None => true
  end.

(** Lines 76-79 for one [script] tag: a tag with a non-empty [src] is
    skipped. *)
Definition script_step (s : node) (f : features) : features :=
  if is_inline_script s then
    let txt := get_text s in
    let f := if susp_re_search txt
             then set_suspiciousInlineJS (suspiciousInlineJS f + 1) f else f in
    let f := if data_uri_search txt
             then set_dataURIScripts (dataURIScripts f + 1) f else f in
    f
  else f.

(** Lines 75-79. *)
Definition collect_scripts (d : soup) (f : features) : features :=
  fold_left (λ f s, script_step s f) (find_all_named "script" d) f.

(** ["form[action]"] *)
Definition sel_form_action (el : node) : bool :=
  bool_decide (Dom.name el = "form") && Dom.has_attr el "action".

(** The test of line 100. *)
Definition iframe_hidden (i : node) : bool :=
  let style := PyStr.lower (default "" (Dom.get i "style")) in
  PyStr.contains "display:none" style || PyStr.contains "visibility:hidden" style
  || bool_decide (Dom.get i "width" = Some "0")
  || bool_decide (Dom.get i "height" = Some "0").

(** Lines 98-101. *)
Definition collect_iframes (d : soup) (f : features) : features :=
  fold_left
    (λ f i, if iframe_hidden i then set_hiddenIframes (hiddenIframes f + 1) f else f)
    (find_all_named "iframe" d) f.

(** The names the pattern of line 113 lists. *)
Definition fingerprint_names : list string :=
  ["CanvasRenderingContext2D"; "WebGLRenderingContext"; "RTCPeerConnection";
   "deviceMemory"; "hardwareConcurrency"].

(** Lines 111-114: the two tests on the text of the page. *)
Definition collect_text (html : string) (f : features) : features :=
  let f := if PyStr.contains "onbeforeunload" (PyStr.lower html)
           then set_onBeforeUnload true f else f in
  let f := if existsb (λ k, PyStr.contains k html) fingerprint_names
           then set_fingerprintingAPIs 1 f else f in
  f.

(** [f"{u.scheme}://{u.netloc}"] *)
Definition origin_text (u : ParseResult) : string := scheme u +:+ "://" +:+ netloc u.

Section Scan.

(** The library functions the scan calls; [None] is a raised exception. *)
Variable parse : string → option soup.
Variable urljoin : string → string → option string.
Variable urlparse : string → option ParseResult.

(** [f"{u.scheme}://{u.netloc}"] for [u = urlparse(None)], which line 105
    reaches when [normalize_url] returned [None]; [None] if that raises. *)
Variable origin_of_None : option string.

(** The test of lines 94-95 on one form: its action resolves to a
    non-empty URL that starts with "http://" when lowered. *)
Definition form_to_http (page_url : string) (fm : node) : bool :=
  match normalize_url urljoin page_url (Dom.get_default fm "action" "") with
  | Some act =>
      negb (bool_decide (act = "")) && PyStr.startswith (PyStr.lower act) "http://"
  | None => false
  end.

(** Lines 94-96 for one form. *)
Definition form_step (page_url : string) (fm : node) (f : features) : features :=
  if form_to_http page_url fm then set_formsToHTTP (formsToHTTP f + 1) f else f.

(** Lines 93-96. *)
Definition collect_forms (page_url : string) (d : soup) (f : features) : features :=
  fold_left (λ f fm, form_step page_url fm f) (Dom.select sel_form_action d) f.

(** Lines 104-109 for one script: the origin text of the resolved [src],
    [None] when anything in the [try] raised. *)
Definition script_origin (page_url : string) (s : node) : option string :=
  src ← Dom.get s "src";
  match normalize_url urljoin page_url src with
  | Some u => origin_text <$> urlparse u
  | None => origin_of_None
  end.

(** The test of line 106, false when anything in the [try] raised. *)
Definition is_third_party (page_url origin : string) (s : node) : bool :=
  match script_origin page_url s with
  | Some o => bool_decide (o ≠ origin)
  | None => false
  end.

Definition third_party_step (page_url origin : string) (s : node) (f : features)
    : features :=
  if is_third_party page_url origin s
  then set_thirdPartyScripts (thirdPartyScripts f + 1) f else f.

(** Lines 103-109; [find_all("script", src=True)] keeps the script tags
    that have a [src]. *)
Definition collect_thirdParty (page_url origin : string) (d : soup) (f : features)
    : features :=
  fold_left (λ f s, third_party_step page_url origin s f)
    (filter (λ el, Dom.has_attr el "src" = true) (find_all_named "script" d)) f.

(** [collect_features(page_url, html)], lines 47-116. *)
Definition collect_features (page_url html : string) : option features :=
  d ← parse html;
  po ← urlparse page_url;
  let origin := origin_text po in
  let f := collect_mixedContent page_url d f0 in
  let f := collect_metaRefresh d f in
  let f := collect_inlineHandlers d f in
  let f := collect_scripts d f in
  f ← collect_links urljoin urlparse page_url d f;
  let f := collect_forms page_url d f in
  let f := collect_iframes d f in
  let f := collect_thirdParty page_url origin d f in
  Some (collect_text html f).

End Scan.

(** The effect of the anchors so far on [f]: what was added to the four
    counters and appended to [execDownloads]. *)
Definition add_links (n1 n2 n3 n4 : Z) (l : list string) (f : features) : features :=
  mkFeatures (mixedContent f) (metaRefresh f) (inlineHandlers f) (suspiciousInlineJS f)
    (dataURIScripts f) (shortenerLinks f + n1) (ipLinks f + n2) (suspiciousTLDs f + n3)
    (execDownloads f ++ l) (formsToHTTP f) (hiddenIframes f) (thirdPartyScripts f)
    (onBeforeUnload f) (fingerprintingAPIs f) (base64InLinks f + n4).

(** ** The request handlers *)

(** What [requests.get] gives the handlers: the text of the page and its
    [Content-Type] header, if it has one. *)
Record fetched : Type := mkFetched {
  text : string;
  content_type : option string
}.



(** [s.split(";")[0]] *)
Fixpoint before_semicolon (s : string) : string :=
  match s with
  | EmptyString => EmptyString
  | String c s' => if Ascii.eqb c ";" then EmptyString else String c (before_semicolon s')
  end.


Section Handlers.

Variable parse : string → option soup.
Variable serialize : soup → string.
Variable urljoin : string → string → option string.
Variable urlparse : string → option ParseResult.
Variable origin_of_None : option string.

(** [requests.get(url, ...)]: the page, or the text of the exception. *)
Variable http_get : string → fetched + string.



End Handlers.

(** ** Further instances for the examples *)

Module Instances.

(** A parser that makes one text node of its input. *)
Definition parse_text : string → option soup := λ s, Some [NavigableString s].

(** A parser for the pages of the examples. *)
Definition parse_table (html : string) : option soup :=
  if bool_decide (html = "<a href=http://evil.zip>x</a>") then Some Examples.zip_anchor
  else Some [NavigableString html].

(** [urlparse] on the URLs of the examples. *)
Definition urlparse_table (u : string) : option ParseResult :=
  if bool_decide (u = "https://site.test/")
  then Some (mkParseResult "https" "site.test" (Some "site.test"))
  else Examples.urlparse_table u.

(** [<a href="http://[bad">x</a>], a link [urlparse] rejects. *)
Definition bad_anchor : soup :=
  [ Tag "a" {[ "href" := "http://[bad" ]} [ NavigableString "x" ] ].


(** A page with one link to a host in ".zip", and what the scan extracts
    from it when it is served over HTTPS. *)
Definition zip_page : string := "<a href=http://evil.zip>x</a>".
Definition zip_features : features :=
  set_mixedContent true (set_execDownloads ["http://evil.zip"] (set_suspiciousTLDs 1 f0)).


(** A fetcher that fails, and one that returns a page without headers. *)
Definition get_fails : string → fetched + string := λ _, inr "timeout".

End Instances.

(** * Properties of the scorer *)

Section ScorerFacts.

Import RuleTable.

(** Every key the scorer reads is in the weight table, so no lookup in
    [WEIGHTS] can fail. *)
Lemma weight_key_present (r : rule) : WEIGHTS !! weight_key r = Some (weight r).
Proof. destruct r; vm_compute; reflexivity. Qed.

Lemma weight_pos (r : rule) : 0 < weight r.
Proof. destruct r; vm_compute; reflexivity. Qed.

Lemma weights_all_positive : map_Forall (λ _ w, 0 < w) WEIGHTS.
Proof.
  unfold WEIGHTS. cbn [list_to_map foldr uncurry fst snd].
  repeat (apply map_Forall_insert_2; [lia |]).
  apply map_Forall_empty.
Qed.

Lemma exec_trigger (f : features) :
  (0 <? Z.of_nat (length (execDownloads f))) = negb (bool_decide (execDownloads f = [])).
Proof. destruct (execDownloads f); reflexivity. Qed.

(** The fifteen conditionals are the table run in declaration order. *)
Lemma score_rules_run (f : features) (st : score_state) :
  score_rules f st = run (triggers f) declaration_order st.
Proof.
  unfold score_rules, run, triggers, declaration_order.
  cbn [fold_left triggered label]. rewrite exec_trigger. reflexivity.
Qed.

Lemma run_total_findings (t : rule → bool) (rs : list rule) (st : score_state) :
  run t rs st = (st.1 + total t rs, st.2 ++ findings t rs).
Proof.
  revert st. induction rs as [|r rs IH]; intros [s l].
  - cbn. f_equal; [lia | by rewrite app_nil_r].
  - change (run t (r :: rs) (s, l))
      with (run t rs (when_add (t r) (label r) (weight r) (s, l))).
    rewrite IH. unfold when_add, add, findings. cbn [total fst snd].
    rewrite filter_cons. destruct (t r) eqn:Ht.
    + rewrite decide_True by reflexivity. cbn [fmap list_fmap fst snd].
      f_equal; [lia |]. by rewrite <- app_assoc.
    + rewrite decide_False by discriminate. cbn [fst snd]. f_equal; lia.
Qed.

(** The code computes what the table describes, and it reads of the
    vector only which rules fired. *)
Lemma score_features_table (f : features) :
  score_features f = table_score (triggers f).
Proof.
  unfold score_features, table_score.
  rewrite score_rules_run, run_total_findings. cbn [fst snd].
  rewrite Z.add_0_l, app_nil_l. reflexivity.
Qed.

Lemma total_nonneg (t : rule → bool) (rs : list rule) : 0 <= total t rs.
Proof.
  induction rs as [|r rs IH]; cbn; [lia |].
  pose proof (weight_pos r). destruct (t r); lia.
Qed.

Lemma total_zero_iff (t : rule → bool) (rs : list rule) :
  total t rs = 0 ↔ findings t rs = [].
Proof.
  unfold findings. induction rs as [|r rs IH]; cbn [total]; [done |].
  pose proof (weight_pos r). pose proof (total_nonneg t rs).
  rewrite filter_cons. destruct (t r) eqn:Ht.
  - rewrite decide_True by reflexivity. cbn. split; [lia | discriminate].
  - rewrite decide_False by discriminate. rewrite <- IH. lia.
Qed.

(** Turning one rule on adds its weight once, when the rule is listed once. *)
Lemma total_switch_on (t1 t2 : rule → bool) (r : rule) (rs : list rule) :
  t1 r = false → t2 r = true → (∀ r', r' ≠ r → t2 r' = t1 r') → NoDup rs →
  total t2 rs = total t1 rs + (if bool_decide (r ∈ rs) then weight r else 0).
Proof.
  intros H1 H2 Hother. induction rs as [|x rs IH]; intros Hnd; [done |].
  apply NoDup_cons in Hnd as [Hx Hnd]. cbn [total]. rewrite (IH Hnd).
  destruct (decide (x = r)) as [->|Hne].
  - rewrite H1, H2. rewrite (bool_decide_eq_false_2 (r ∈ rs)) by done.
    rewrite bool_decide_eq_true_2 by left. lia.
  - rewrite (Hother x Hne).
    rewrite (bool_decide_ext (r ∈ x :: rs) (r ∈ rs)); [lia |].
    rewrite elem_of_cons. split; [intros [E|E]; [by subst | done] | by right].
Qed.

Lemma declaration_order_NoDup : NoDup declaration_order.
Proof. apply (bool_decide_unpack _). vm_compute. reflexivity. Qed.

Lemma declaration_order_complete (r : rule) : r ∈ declaration_order.
Proof. destruct r; apply (bool_decide_unpack _); vm_compute; reflexivity. Qed.

Lemma finding_inj (r r' : rule) : finding r = finding r' → r = r'.
Proof.
  destruct r, r'; try reflexivity; intros H; vm_compute in H; discriminate H.
Qed.

Lemma occurrences_findings (t : rule → bool) (r : rule) (rs : list rule) :
  NoDup rs →
  occurrences (finding r) (findings t rs)
  = if (bool_decide (r ∈ rs) && t r)%bool then 1%nat else 0%nat.
Proof.
  unfold occurrences, findings. induction rs as [|x rs IH]; intros Hnd; [done |].
  apply NoDup_cons in Hnd as [Hx Hnd]. specialize (IH Hnd).
  rewrite filter_cons. destruct (decide (x = r)) as [->|Hne].
  - rewrite bool_decide_eq_true_2 by left.
    rewrite (bool_decide_eq_false_2 (r ∈ rs)) in IH by done.
    rewrite andb_false_l in IH. rewrite andb_true_l.
    destruct (t r) eqn:Ht.
    + rewrite decide_True by reflexivity.
      rewrite fmap_cons, filter_cons, decide_True by reflexivity.
      cbn [length]. by rewrite IH.
    + rewrite decide_False by discriminate. exact IH.
  - rewrite (bool_decide_ext (r ∈ x :: rs) (r ∈ rs)) by (rewrite elem_of_cons; split; [intros [E|E]; [by subst | done] | by right]).
    destruct (t x) eqn:Ht.
    + rewrite decide_True by reflexivity.
      rewrite fmap_cons, filter_cons.
      rewrite decide_False by (intros E; apply finding_inj in E; done). exact IH.
    + rewrite decide_False by discriminate. exact IH.
Qed.

(** The table reads a trigger assignment pointwise. *)
Lemma table_score_ext (t1 t2 : rule → bool) :
  (∀ r, t1 r = t2 r) → table_score t1 = table_score t2.
Proof.
  intros E. unfold table_score.
  assert (∀ rs, total t1 rs = total t2 rs) as ->.
  { induction rs as [|r rs IH]; cbn [total]; [done |]. by rewrite E, IH. }
  assert (∀ rs, findings t1 rs = findings t2 rs) as ->; [| reflexivity].
  unfold findings. induction rs as [|r rs IH]; [done |].
  rewrite !filter_cons, E.
  destruct (decide (t2 r = true)); [rewrite !fmap_cons |]; by rewrite IH.
Qed.

End ScorerFacts.

(** C1. For every feature vector the score is the sum of the weights of the
    triggered rules clamped at 100, hence an integer between 0 and 100, and
    the level is one of Low, Medium and High: High exactly when the score is
    at least 70, Medium exactly when it is at least 40 and below 70, Low
    exactly when it is below 40. *)
Theorem score_bounded_level_thresholds (f : features) :
  score f = Z.min (RuleTable.total (RuleTable.triggers f) RuleTable.declaration_order) 100
  ∧ 0 <= score f <= 100
  ∧ (level f = "Low" ∨ level f = "Medium" ∨ level f = "High")
  ∧ (level f = "High" ↔ 70 <= score f)
  ∧ (level f = "Medium" ↔ 40 <= score f < 70)
  ∧ (level f = "Low" ↔ score f < 40).
Proof.
  unfold score, level. rewrite score_features_table.
  unfold RuleTable.table_score. cbn [fst snd].
  pose proof (total_nonneg (RuleTable.triggers f) RuleTable.declaration_order) as Hpos.
  set (s := Z.min _ 100). assert (0 <= s <= 100) as Hs by (subst s; lia).
  split; [reflexivity |]. split; [exact Hs |].
  unfold level_of.
  destruct (Z.leb_spec 70 s); [| destruct (Z.leb_spec 40 s)];
    repeat split; intros; try lia; try discriminate; auto.
Qed.

(** C2. The issues are the findings of exactly the triggered rules, in the
    fixed declaration order, whichever subset of the rules triggered. *)
Theorem issues_in_declaration_order (f : features) :
  issues f
  = RuleTable.finding <$>
      filter (λ r, RuleTable.triggered r f = true) RuleTable.declaration_order
  ∧ (∀ r, RuleTable.finding r ∈ issues f ↔ RuleTable.triggered r f = true)
  ∧ sublist (issues f) (RuleTable.finding <$> RuleTable.declaration_order).
Proof.
  assert (issues f = RuleTable.finding <$>
      filter (λ r, RuleTable.triggered r f = true) RuleTable.declaration_order) as E.
  { unfold issues. rewrite score_features_table. reflexivity. }
  split; [exact E |]. rewrite E. split.
  - intros r. rewrite list_elem_of_fmap. split.
    + intros (r' & Hr' & Hin). apply finding_inj in Hr' as <-.
      by apply list_elem_of_filter in Hin as [Ht _].
    + intros Ht. exists r. split; [reflexivity |].
      apply list_elem_of_filter. split; [exact Ht | apply declaration_order_complete].
  - apply fmap_sublist, sublist_filter.
Qed.

(** C3. Each of the fifteen rules contributes its fixed weight to the total
    and its finding to the issues at most once per scan, and only whether a
    rule triggered matters, not the size of the count that triggered it: a
    vector with [inlineHandlers = 25] has the finding
    "Many inline event handlers (+10)" exactly once and gets 10 from that
    rule, like a vector with any larger count. *)
Theorem rule_fires_at_most_once (f : features) :
  (∀ r, occurrences (RuleTable.finding r) (issues f)
        = if RuleTable.triggered r f then 1%nat else 0%nat)
  ∧ score f = Z.min (RuleTable.total (RuleTable.triggers f) RuleTable.declaration_order) 100
  ∧ NoDup RuleTable.declaration_order
  ∧ score_features f = RuleTable.table_score (RuleTable.triggers f)
  ∧ (∀ n, score_features (set_inlineHandlers (25 + Z.of_nat n) f)
          = score_features (set_inlineHandlers 25 f))
  ∧ occurrences "Many inline event handlers (+10)" (issues (set_inlineHandlers 25 f)) = 1%nat
  ∧ RuleTable.weight RuleTable.ManyInlineHandlers = 10
  ∧ score_features (set_inlineHandlers 25 f0) = (10, "Low", ["Many inline event handlers (+10)"]).
Proof.
  split.
  { intros r. unfold issues. rewrite score_features_table. cbn [snd RuleTable.table_score].
    rewrite occurrences_findings by apply declaration_order_NoDup.
    rewrite bool_decide_eq_true_2 by apply declaration_order_complete.
    reflexivity. }
  split. { unfold score. rewrite score_features_table. reflexivity. }
  split. { apply declaration_order_NoDup. }
  split. { apply score_features_table. }
  split.
  { intros n. rewrite !score_features_table. apply table_score_ext.
    intros r. destruct r; try reflexivity.
    unfold RuleTable.triggers. cbn. apply Z.ltb_lt. lia. }
  split.
  { change "Many inline event handlers (+10)"
      with (RuleTable.finding RuleTable.ManyInlineHandlers).
    unfold issues. rewrite score_features_table. cbn [snd RuleTable.table_score].
    rewrite occurrences_findings by apply declaration_order_NoDup.
    reflexivity. }
  split; vm_compute; reflexivity.
Qed.

(** C4. The score is monotone in rule triggering: when a vector [f2] differs
    from [f1] so that one rule that had not triggered triggers and every
    other rule keeps its status, the score does not decrease, and it stays
    equal only where the clamp at 100 applies. *)
Theorem score_monotone (f1 f2 : features) (r : RuleTable.rule)
    (Hoff : RuleTable.triggered r f1 = false)
    (Hon : RuleTable.triggered r f2 = true)
    (Hother : ∀ r', r' ≠ r → RuleTable.triggered r' f2 = RuleTable.triggered r' f1) :
  score f1 <= score f2
  ∧ (score f1 = score f2 →
     score f1 = 100
     ∧ 100 <= RuleTable.total (RuleTable.triggers f1) RuleTable.declaration_order).
Proof.
  unfold score. rewrite !score_features_table.
  unfold RuleTable.table_score. cbn [fst].
  pose proof (total_switch_on (RuleTable.triggers f1) (RuleTable.triggers f2) r
                RuleTable.declaration_order Hoff Hon Hother declaration_order_NoDup) as E.
  rewrite bool_decide_eq_true_2 in E by apply declaration_order_complete.
  pose proof (weight_pos r). lia.
Qed.

Lemma score_monotone_witness :
  score f0 <= score (set_ipLinks 1 f0)
  ∧ (score f0 = score (set_ipLinks 1 f0) →
     score f0 = 100
     ∧ 100 <= RuleTable.total (RuleTable.triggers f0) RuleTable.declaration_order).
Proof.
  apply (score_monotone f0 (set_ipLinks 1 f0) RuleTable.IpLinks).
  - reflexivity.
  - reflexivity.
  - intros r' Hne. destruct r'; first [reflexivity | contradiction].
Defined.

(** C8. The score is 0 exactly when the issues list is empty: every weight of
    the weight table is strictly positive and a weight is only ever added
    together with a finding. *)
Theorem score_zero_iff_no_issues (f : features) :
  (score f = 0 ↔ issues f = [])
  ∧ map_Forall (λ _ w, 0 < w) WEIGHTS.
Proof.
  split; [| apply weights_all_positive].
  unfold score, issues. rewrite score_features_table.
  unfold RuleTable.table_score. cbn [fst snd].
  rewrite <- total_zero_iff.
  pose proof (total_nonneg (RuleTable.triggers f) RuleTable.declaration_order). lia.
Qed.

(** * Properties of the feature extractor *)

Section InlineHandlers.

(** The inner loop adds one per listed name that is an attribute of [el]. *)
Lemma inline_fold_count (el : node) (l : list string) (f : features) :
  inlineHandlers
    (fold_left
       (λ f a, if Dom.has_attr el a then set_inlineHandlers (inlineHandlers f + 1) f else f)
       l f)
  = inlineHandlers f
    + Z.of_nat (length (filter (λ a, a ∈ dom (Dom.attrs el)) l)).
Proof.
  revert f. induction l as [|a l IH]; intros f; cbn [fold_left].
  - cbn. lia.
  - rewrite IH, filter_cons. unfold Dom.has_attr.
    destruct (decide (a ∈ dom (Dom.attrs el))) as [Hin|Hout].
    + rewrite bool_decide_eq_true_2 by done. cbn [set_inlineHandlers inlineHandlers length]. lia.
    + rewrite bool_decide_eq_false_2 by done. lia.
Qed.

(** Filtering the members of a set by membership in another counts the
    intersection, whatever the order the set is traversed in. *)
Lemma filter_elements_size (D X : gset string) :
  length (filter (λ a, a ∈ D) (elements X)) = size (D ∩ X).
Proof.
  unfold size, set_size. cbn. apply Permutation_length, NoDup_Permutation.
  - apply NoDup_filter, NoDup_elements.
  - apply NoDup_elements.
  - intros a. rewrite list_elem_of_filter, !elem_of_elements. set_solver.
Qed.

Lemma inline_inner_count (el : node) (f : features) :
  inlineHandlers (inline_inner el f)
  = inlineHandlers f + Z.of_nat (size (dom (Dom.attrs el) ∩ INLINE_EVENTS)).
Proof. unfold inline_inner. by rewrite inline_fold_count, filter_elements_size. Qed.

Lemma inline_outer_count (els : list node) (f : features) :
  inlineHandlers (fold_left (λ f el, inline_inner el f) els f)
  = inlineHandlers f
    + Z.of_nat (sum_list_with (λ el, size (dom (Dom.attrs el) ∩ INLINE_EVENTS)) els).
Proof.
  revert f. induction els as [|el els IH]; intros f; cbn [fold_left sum_list_with].
  - lia.
  - rewrite IH, inline_inner_count. lia.
Qed.

End InlineHandlers.

(** C5, as the code has it. [inlineHandlers] counts, over all elements of the
    document, one for every attribute of the element whose name is a
    recognized inline event handler, so an element with several such
    attributes counts several times; the recognized set has exactly ten
    names. *)
Theorem inlineHandlers_counts_attributes (d : soup) (f : features) :
  inlineHandlers (collect_inlineHandlers d f)
  = inlineHandlers f
    + Z.of_nat (sum_list_with (λ el, size (dom (Dom.attrs el) ∩ INLINE_EVENTS))
                  (Dom.find_all d))
  ∧ size INLINE_EVENTS = 10%nat
  ∧ inlineHandlers (collect_inlineHandlers Examples.handlers_doc f0) = 3.
Proof.
  split; [apply inline_outer_count |]. split; vm_compute; reflexivity.
Qed.

(** C5 as stated fails: the recognized set does not have fourteen names. *)
Lemma inline_events_not_fourteen :
  ¬ (∀ (d : soup) (f : features),
       inlineHandlers (collect_inlineHandlers d f)
       = inlineHandlers f
         + Z.of_nat (sum_list_with (λ el, size (dom (Dom.attrs el) ∩ INLINE_EVENTS))
                       (Dom.find_all d))
       ∧ size INLINE_EVENTS = 14%nat).
Proof.
  intros H. destruct (H [] f0) as [_ E]. vm_compute in E. discriminate E.
Qed.

Section MetaRefresh.

(** What lines 66-67 detect: the two spellings the selector lists. *)
Lemma collect_metaRefresh_true (d : soup) (f : features) :
  metaRefresh (collect_metaRefresh d f) = true
  ↔ metaRefresh f = true
    ∨ ∃ el, el ∈ Dom.find_all d ∧ Dom.name el = "meta"
            ∧ (Dom.get el "http-equiv" = Some "refresh"
               ∨ Dom.get el "http-equiv" = Some "Refresh").
Proof.
  unfold collect_metaRefresh, Dom.select_one, Dom.select.
  destruct (filter _ (Dom.find_all d)) as [|el l] eqn:E; cbn [head].
  - split; [by left |]. intros [H | (el & Hin & Hn & Hv)]; [exact H |].
    assert (el ∈ filter (λ el, Dom.sel_meta_refresh el = true) (Dom.find_all d)) as Hel.
    { apply list_elem_of_filter. split; [| exact Hin].
      unfold Dom.sel_meta_refresh. rewrite bool_decide_eq_true_2 by exact Hn.
      destruct Hv as [Hv | Hv]; rewrite Hv; reflexivity. }
    rewrite E in Hel. by apply elem_of_nil in Hel.
  - split; [intros _ | reflexivity]. right. exists el.
    assert (el ∈ filter (λ el, Dom.sel_meta_refresh el = true) (Dom.find_all d)) as Hel
      by (rewrite E; left).
    apply list_elem_of_filter in Hel as [Hsel Hin].
    unfold Dom.sel_meta_refresh in Hsel.
    apply andb_true_iff in Hsel as [Hn Hv]. apply bool_decide_eq_true in Hn.
    apply orb_true_iff in Hv as [Hv | Hv]; apply bool_decide_eq_true in Hv; auto.
Qed.

(** Whatever the code detects is a meta refresh in the sense of the
    specification; the converse is what fails. *)
Lemma collect_metaRefresh_sound (d : soup) (f : features) :
  metaRefresh f = false → metaRefresh (collect_metaRefresh d f) = true →
  has_meta_refresh_ci d = true.
Proof.
  intros Hf H. apply collect_metaRefresh_true in H as [H | (el & Hin & Hn & Hv)];
    [congruence |].
  unfold has_meta_refresh_ci. apply existsb_exists. exists el.
  split; [by apply list_elem_of_In |].
  rewrite bool_decide_eq_true_2 by exact Hn.
  destruct Hv as [Hv | Hv]; rewrite Hv; reflexivity.
Qed.

End MetaRefresh.

(** C7 fails on the code. The document
    [<meta http-equiv="REFRESH" content="0;url=http://example.com/">] has a
    meta tag whose [http-equiv] equals "refresh" when case is ignored, and
    the extractor leaves [metaRefresh] false: the selector of line 66 lists
    the spellings "refresh" and "Refresh" only. *)
Theorem metaRefresh_uppercase_missed :
  has_meta_refresh_ci Examples.meta_REFRESH = true
  ∧ metaRefresh (collect_metaRefresh Examples.meta_REFRESH f0) = false.
Proof. split; vm_compute; reflexivity. Qed.

Section Links.

Variable urljoin : string → string → option string.
Variable urlparse : string → option ParseResult.

(** An anchor whose link resolves goes through the five checks with the
    resolved URL and its host. *)
Lemma link_step_resolved (page_url href : string) (p : ParseResult) (a : node)
    (f : features) :
  urljoin page_url (Dom.get_default a "href" "") = Some href → href ≠ "" →
  urlparse href = Some p →
  link_step urljoin urlparse page_url a f
  = Some (link_checks (Dom.has_attr a "download") href (default "" (hostname p)) f).
Proof.
  intros Hj Hne Hp. unfold link_step, normalize_url. rewrite Hj.
  rewrite bool_decide_eq_false_2 by exact Hne. rewrite Hp. reflexivity.
Qed.

(** An anchor whose link does not resolve is skipped. *)
Lemma link_step_unresolved (page_url : string) (a : node) (f : features) :
  urljoin page_url (Dom.get_default a "href" "") = None →
  link_step urljoin urlparse page_url a f = Some f.
Proof. intros Hj. unfold link_step, normalize_url. by rewrite Hj. Qed.

End Links.

(** The anchor [<a href="http://evil.zip">] through the whole loop. *)
Example collect_links_zip_anchor :
  collect_links Examples.urljoin_abs Examples.urlparse_table "https://site.test/"
    Examples.zip_anchor f0
  = Some (set_execDownloads ["http://evil.zip"] (set_suspiciousTLDs 1 f0)).
Proof. vm_compute. reflexivity. Qed.

(** The download test reads the whole URL, not the host: with a path after
    the host the URL no longer ends in ".zip" and only [suspiciousTLDs]
    counts it. *)
Remark zip_host_with_path :
  link_checks false "http://evil.zip/a" "evil.zip" f0 = set_suspiciousTLDs 1 f0.
Proof. vm_compute. reflexivity. Qed.


Section MixedContent.




End MixedContent.



(** * Properties of the sandbox rewriter *)

Section SandboxFacts.

Variable parse : string → option soup.
Variable serialize : soup → string.




(** A document that is parsed is not passed through either: the rewritten
    document of scenario F has lost its CSP meta tag and its head starts
    with the base tag. *)
Example rewrite_csp_doc :
  Rewrite.remove_csp_all (Rewrite.add_base "http://a.test/" Examples.csp_doc)
  = [ Tag "html" ∅
        [ Tag "head" ∅
            [ Tag "base" {[ "href" := "http://a.test/" ]} [];
              Tag "title" ∅ [ NavigableString "t" ] ];
          Tag "body" ∅ [] ] ].
Proof. vm_compute. reflexivity. Qed.

(** Without a head, one is created first in the document. *)
Example rewrite_headless :
  Rewrite.remove_csp_all (Rewrite.add_base "http://a.test/" [ NavigableString "<p" ])
  = [ Tag "head" ∅ [ Tag "base" {[ "href" := "http://a.test/" ]} [] ];
      NavigableString "<p" ].
Proof. vm_compute. reflexivity. Qed.

End SandboxFacts.




(** * Further properties of the scorer *)

Section ScorerMore.

Import RuleTable.

Lemma issues_findings (f : features) :
  issues f = findings (triggers f) declaration_order.
Proof. unfold issues. by rewrite score_features_table. Qed.

Lemma finding_in_issues (f : features) (r : rule) :
  finding r ∈ issues f ↔ triggered r f = true.
Proof.
  rewrite issues_findings. unfold findings. rewrite list_elem_of_fmap. split.
  - intros (r' & Hr' & Hin). apply finding_inj in Hr' as <-.
    by apply list_elem_of_filter in Hin as [Ht _].
  - intros Ht. exists r. split; [reflexivity |].
    apply list_elem_of_filter. split; [exact Ht | apply declaration_order_complete].
Qed.

(** A larger set of triggers gives a larger total and more findings. *)
Lemma total_mono (t1 t2 : rule → bool) (rs : list rule) :
  (∀ r, t1 r = true → t2 r = true) → total t1 rs <= total t2 rs.
Proof.
  intros H. induction rs as [|r rs IH]; cbn [total]; [lia |].
  pose proof (weight_pos r). specialize (H r).
  destruct (t1 r), (t2 r); first [lia | by specialize (H eq_refl)].
Qed.

Lemma findings_mono (t1 t2 : rule → bool) (rs : list rule) :
  (∀ r, t1 r = true → t2 r = true) → sublist (findings t1 rs) (findings t2 rs).
Proof.
  intros H. unfold findings. apply fmap_sublist.
  induction rs as [|r rs IH]; [done |]. rewrite !filter_cons.
  destruct (decide (t1 r = true)) as [H1|H1].
  - rewrite decide_True by auto. by apply sublist_skip.
  - destruct (decide (t2 r = true)); [by apply sublist_cons | exact IH].
Qed.

(** Each finding is worth at least 10 and at most 20, except the one of
    [MixedContent], which is worth 25. *)
Lemma total_bounds (t : rule → bool) (rs : list rule) :
  NoDup rs →
  10 * Z.of_nat (length (findings t rs)) <= total t rs
  ∧ total t rs
    <= 20 * Z.of_nat (length (findings t rs))
       + (if bool_decide (MixedContent ∈ rs) then 5 else 0).
Proof.
  unfold findings. induction rs as [|r rs IH]; intros Hnd.
  - cbn. case_bool_decide; lia.
  - apply NoDup_cons in Hnd as [Hr Hnd]. specialize (IH Hnd).
    cbn [total]. rewrite filter_cons.
    assert (10 <= weight r
            ∧ weight r <= (if bool_decide (r = MixedContent) then 25 else 20)) as Hw
      by (destruct r; vm_compute; split; discriminate).
    assert ((if bool_decide (MixedContent ∈ r :: rs) then 5 else 0)
            = (if bool_decide (r = MixedContent) then 5 else 0)
              + (if bool_decide (MixedContent ∈ rs) then 5 else 0)) as ->.
    { destruct (decide (r = MixedContent)) as [->|Hne].
      - rewrite bool_decide_eq_true_2 by left.
        rewrite (bool_decide_eq_true_2 (MixedContent = MixedContent)) by done.
        by rewrite (bool_decide_eq_false_2 (MixedContent ∈ rs)).
      - rewrite (bool_decide_eq_false_2 (r = MixedContent)) by done.
        rewrite (bool_decide_ext (MixedContent ∈ r :: rs) (MixedContent ∈ rs)); [done |].
        rewrite elem_of_cons. split; [intros [E|E]; [by subst | done] | by right]. }
    destruct (t r) eqn:Ht.
    + rewrite decide_True by reflexivity. rewrite fmap_cons. cbn [length].
      destruct (bool_decide (r = MixedContent)); lia.
    + rewrite decide_False by discriminate.
      destruct (bool_decide (r = MixedContent)); lia.
Qed.

Lemma findings_length_le (t : rule → bool) (rs : list rule) :
  (length (findings t rs) ≤ length rs)%nat.
Proof. unfold findings. rewrite length_fmap. apply length_filter. Qed.

End ScorerMore.

(** X1. The issues determine the whole result: two vectors with the same
    list of issues get the same score and the same level. *)
Theorem issues_determine_score (f1 f2 : features) (Hiss : issues f1 = issues f2) :
  score_features f1 = score_features f2.
Proof.
  rewrite !score_features_table. apply table_score_ext. intros r.
  unfold RuleTable.triggers.
  pose proof (finding_in_issues f1 r) as H1. pose proof (finding_in_issues f2 r) as H2.
  rewrite Hiss in H1.
  destruct (RuleTable.triggered r f1), (RuleTable.triggered r f2); try reflexivity.
  - symmetry. apply H2, H1. reflexivity.
  - apply H1, H2. reflexivity.
Qed.

Lemma issues_determine_score_witness :
  score_features (set_ipLinks 1 f0) = score_features (set_ipLinks 7 f0).
Proof.
  apply (issues_determine_score (set_ipLinks 1 f0) (set_ipLinks 7 f0)).
  vm_compute. reflexivity.
Defined.

(** X2. How many findings a level needs: there are at most fifteen issues,
    one issue alone leaves the level Low, Medium needs at least two issues
    and High at least four, and ten issues or more give the score 100. *)
Theorem level_needs_findings (f : features) :
  (length (issues f) ≤ 15)%nat
  ∧ ((length (issues f) ≤ 1)%nat → level f = "Low")
  ∧ (level f = "Medium" → (2 ≤ length (issues f))%nat)
  ∧ (level f = "High" → (4 ≤ length (issues f))%nat)
  ∧ ((10 ≤ length (issues f))%nat → score f = 100).
Proof.
  pose proof (total_bounds (RuleTable.triggers f) RuleTable.declaration_order
                declaration_order_NoDup) as [Hlo Hhi].
  pose proof (findings_length_le (RuleTable.triggers f) RuleTable.declaration_order) as Hlen.
  rewrite bool_decide_eq_true_2 in Hhi by apply declaration_order_complete.
  rewrite issues_findings. unfold level, score. rewrite score_features_table.
  unfold RuleTable.table_score. cbn [fst snd].
  set (n := length (RuleTable.findings _ _)) in *.
  set (tot := RuleTable.total _ _) in *.
  change (length RuleTable.declaration_order) with 15%nat in Hlen.
  unfold level_of.
  destruct (Z.leb_spec 70 (Z.min tot 100)); [| destruct (Z.leb_spec 40 (Z.min tot 100))];
    repeat split; intros; try discriminate; try lia.
Qed.

(** X3. The result is monotone in the set of triggered rules: when every
    rule that triggered on [f1] also triggers on [f2], the score does not
    decrease, the issues of [f1] are kept in order among those of [f2], and
    the level does not go down. *)
Theorem score_monotone_pointwise (f1 f2 : features)
    (Hsub : ∀ r, RuleTable.triggered r f1 = true → RuleTable.triggered r f2 = true) :
  score f1 <= score f2
  ∧ sublist (issues f1) (issues f2)
  ∧ (level f1 = "High" → level f2 = "High")
  ∧ (level f2 = "Low" → level f1 = "Low").
Proof.
  pose proof (total_mono (RuleTable.triggers f1) (RuleTable.triggers f2)
                RuleTable.declaration_order Hsub) as Htot.
  split; [| split].
  - unfold score. rewrite !score_features_table.
    unfold RuleTable.table_score. cbn [fst snd]. lia.
  - rewrite !issues_findings. by apply findings_mono.
  - unfold level. rewrite !score_features_table.
    unfold RuleTable.table_score. cbn [fst snd]. unfold level_of.
    set (t1 := RuleTable.total (RuleTable.triggers f1) _) in *.
    set (t2 := RuleTable.total (RuleTable.triggers f2) _) in *.
    destruct (Z.leb_spec 70 (Z.min t1 100)), (Z.leb_spec 70 (Z.min t2 100));
      destruct (Z.leb_spec 40 (Z.min t1 100)), (Z.leb_spec 40 (Z.min t2 100));
      split; intros; try discriminate; try reflexivity; lia.
Qed.

Lemma score_monotone_pointwise_witness :
  score (set_ipLinks 1 f0) <= score (set_mixedContent true (set_ipLinks 2 f0))
  ∧ sublist (issues (set_ipLinks 1 f0)) (issues (set_mixedContent true (set_ipLinks 2 f0)))
  ∧ (level (set_ipLinks 1 f0) = "High"
     → level (set_mixedContent true (set_ipLinks 2 f0)) = "High")
  ∧ (level (set_mixedContent true (set_ipLinks 2 f0)) = "Low"
     → level (set_ipLinks 1 f0) = "Low").
Proof.
  apply (score_monotone_pointwise (set_ipLinks 1 f0)
           (set_mixedContent true (set_ipLinks 2 f0))).
  intros r. destruct r; vm_compute; intros H; first [reflexivity | discriminate H].
Defined.

(** * Further properties of the sandbox rewriter *)

Section RewriteFacts.

Lemma is_csp_meta_contents (nm : string) (a : gmap string string) (cs cs' : list node) :
  Rewrite.is_csp_meta (Tag nm a cs) = Rewrite.is_csp_meta (Tag nm a cs').
Proof. reflexivity. Qed.

(** What is left of a node holds no CSP meta tag. *)
Lemma remove_csp_clean (n : node) :
  ∀ el, el ∈ flat_map Dom.tags_of (Rewrite.remove_csp n) → Rewrite.is_csp_meta el = false.
Proof.
  induction n as [nm a cs IH | t] using node_ind; intros el; cbn [Rewrite.remove_csp].
  - destruct (Rewrite.is_csp_meta (Tag nm a cs)) eqn:E; [by intros ?%elem_of_nil |].
    cbn [flat_map Dom.tags_of]. rewrite app_nil_r. intros [->|Hin]%elem_of_cons.
    + by rewrite <- E.
    + revert Hin. induction IH as [|c r Hc _ IHr]; cbn [flat_map]; [by intros ?%elem_of_nil |].
      rewrite flat_map_app. intros [Hin|Hin]%elem_of_app; [by apply Hc | by apply IHr].
  - by intros ?%elem_of_nil.
Qed.

(** A node without CSP meta tags is kept as it is. *)
Lemma remove_csp_id (n : node) :
  (∀ el, el ∈ Dom.tags_of n → Rewrite.is_csp_meta el = false) →
  Rewrite.remove_csp n = [n].
Proof.
  induction n as [nm a cs IH | t] using node_ind; intros H; cbn [Rewrite.remove_csp];
    [| reflexivity].
  rewrite (H (Tag nm a cs)) by left. do 2 f_equal.
  assert (∀ el, el ∈ flat_map Dom.tags_of cs → Rewrite.is_csp_meta el = false) as H'.
  { intros el Hin. apply H. by right. }
  clear H. induction IH as [|c r Hc _ IHr]; [reflexivity |].
  cbn [flat_map] in *. rewrite Hc, IHr; [reflexivity | |].
  - intros el Hin. apply H', elem_of_app. by right.
  - intros el Hin. apply H', elem_of_app. by left.
Qed.

Lemma remove_csp_all_clean (d : soup) :
  ∀ el, el ∈ Dom.find_all (Rewrite.remove_csp_all d) → Rewrite.is_csp_meta el = false.
Proof.
  unfold Dom.find_all, Rewrite.remove_csp_all. intros el.
  induction d as [|c r IH]; cbn [flat_map]; [by intros ?%elem_of_nil |].
  rewrite flat_map_app. intros [Hin|Hin]%elem_of_app; [| by apply IH].
  by apply remove_csp_clean in Hin.
Qed.

Lemma remove_csp_all_id (d : soup) :
  (∀ el, el ∈ Dom.find_all d → Rewrite.is_csp_meta el = false) →
  Rewrite.remove_csp_all d = d.
Proof.
  unfold Dom.find_all, Rewrite.remove_csp_all.
  induction d as [|c r IH]; intros H; [reflexivity |]. cbn [flat_map] in *.
  rewrite remove_csp_id, IH; [reflexivity | |].
  - intros el Hin. apply H, elem_of_app. by right.
  - intros el Hin. apply H, elem_of_app. by left.
Qed.

(** The tags that are left are tags of the input, in their order. *)
Lemma remove_csp_sublist (n : node) :
  sublist ((λ el, (Dom.name el, Dom.attrs el)) <$> flat_map Dom.tags_of (Rewrite.remove_csp n))
          ((λ el, (Dom.name el, Dom.attrs el)) <$> Dom.tags_of n).
Proof.
  induction n as [nm a cs IH | t] using node_ind; cbn [Rewrite.remove_csp]; [| done].
  destruct (Rewrite.is_csp_meta (Tag nm a cs)); [apply sublist_nil_l |].
  cbn [flat_map Dom.tags_of]. rewrite app_nil_r, !fmap_cons. cbn [Dom.name Dom.attrs].
  apply sublist_skip.
  induction IH as [|c r Hc _ IHr]; [done |].
  cbn [flat_map]. rewrite flat_map_app, !fmap_app. by apply sublist_app.
Qed.

Lemma remove_csp_all_sublist (d : soup) :
  sublist ((λ el, (Dom.name el, Dom.attrs el)) <$> Dom.find_all (Rewrite.remove_csp_all d))
          ((λ el, (Dom.name el, Dom.attrs el)) <$> Dom.find_all d).
Proof.
  unfold Dom.find_all, Rewrite.remove_csp_all.
  induction d as [|c r IH]; [done |].
  cbn [flat_map]. rewrite flat_map_app, !fmap_app.
  apply sublist_app; [apply remove_csp_sublist | exact IH].
Qed.

End RewriteFacts.

(** X4. After lines 182-184 no tag of the document is a [meta] whose
    [http-equiv] is "content-security-policy" in any casing; the step only
    removes tags, keeping the others in their order, and doing it twice
    changes nothing more. *)
Theorem remove_csp_all_clean_idempotent (d : soup) :
  (∀ el, el ∈ Dom.find_all (Rewrite.remove_csp_all d) → Rewrite.is_csp_meta el = false)
  ∧ sublist
      ((λ el, (Dom.name el, Dom.attrs el)) <$> Dom.find_all (Rewrite.remove_csp_all d))
      ((λ el, (Dom.name el, Dom.attrs el)) <$> Dom.find_all d)
  ∧ Rewrite.remove_csp_all (Rewrite.remove_csp_all d) = Rewrite.remove_csp_all d.
Proof.
  split; [apply remove_csp_all_clean |]. split; [apply remove_csp_all_sublist |].
  apply remove_csp_all_id, remove_csp_all_clean.
Qed.

(** X5. A document without CSP meta tags goes through lines 182-184
    unchanged. *)
Theorem remove_csp_all_unchanged (d : soup)
    (Hnone : ∀ el, el ∈ Dom.find_all d → Rewrite.is_csp_meta el = false) :
  Rewrite.remove_csp_all d = d.
Proof. by apply remove_csp_all_id. Qed.

Lemma remove_csp_all_unchanged_witness :
  Rewrite.remove_csp_all Examples.handlers_doc = Examples.handlers_doc.
Proof.
  apply (remove_csp_all_unchanged Examples.handlers_doc).
  intros el Hin. vm_compute in Hin.
  repeat (apply elem_of_cons in Hin as [-> | Hin]; [vm_compute; reflexivity |]).
  by apply elem_of_nil in Hin.
Defined.

Section AddBaseFacts.

Variable b : node.

(** The first head of the document is the one that receives [b]; whether
    there is one decides between the two cases of the insertion. *)
Lemma insert_in_head_heads (n : node) :
  (Rewrite.insert_in_head b n = None
   → filter (λ el, Dom.name el = "head") (Dom.tags_of n) = [])
  ∧ (∀ n', Rewrite.insert_in_head b n = Some n' →
       ∃ a cs rest rest',
         filter (λ el, Dom.name el = "head") (Dom.tags_of n) = Tag "head" a cs :: rest
         ∧ filter (λ el, Dom.name el = "head") (Dom.tags_of n')
           = Tag "head" a (b :: cs) :: rest').
Proof.
  induction n as [nm a cs IH | t] using node_ind.
  2: { split; [reflexivity | discriminate]. }
  cbn [Rewrite.insert_in_head Dom.tags_of]. rewrite filter_cons. cbn [Dom.name].
  case_bool_decide as Hnm.
  - subst nm. split; [discriminate |]. intros n' [= <-].
    rewrite decide_True by reflexivity.
    eexists a, cs, _, _. split; [reflexivity |].
    cbn [Dom.tags_of]. rewrite filter_cons, decide_True by reflexivity. reflexivity.
  - rewrite decide_False by exact Hnm.
    match goal with |- context [?g cs] =>
      assert ((g cs = None → filter (λ el, Dom.name el = "head") (flat_map Dom.tags_of cs) = [])
              ∧ (∀ cs', g cs = Some cs' →
                   ∃ a' cs0 rest rest',
                     filter (λ el, Dom.name el = "head") (flat_map Dom.tags_of cs)
                     = Tag "head" a' cs0 :: rest
                     ∧ filter (λ el, Dom.name el = "head") (flat_map Dom.tags_of cs')
                       = Tag "head" a' (b :: cs0) :: rest')) as [Hnone Hsome]
    end.
    { induction IH as [|c r [Hc1 Hc2] _ [IHr1 IHr2]]; [split; [reflexivity | discriminate] |].
      cbn [flat_map]. rewrite filter_app.
      destruct (Rewrite.insert_in_head b c) as [c'|] eqn:Ec.
      - split; [discriminate |]. intros cs' [= <-].
        destruct (Hc2 c' eq_refl) as (a' & cs0 & rest & rest' & E1 & E2).
        cbn [flat_map]. rewrite filter_app, E1, E2.
        eexists a', cs0, _, _. split; reflexivity.
      - rewrite (Hc1 eq_refl). cbn [app].
        destruct (_ r) as [r'|] eqn:Er; cbn.
        + split; [discriminate |]. intros cs' [= <-].
          destruct (IHr2 r' eq_refl) as (a' & cs0 & rest & rest' & E1 & E2).
          cbn [flat_map]. rewrite filter_app, (Hc1 eq_refl), E1, E2.
          eexists a', cs0, _, _. split; reflexivity.
        + split; [intros _; by apply IHr1 | discriminate]. }
    destruct (_ cs) as [cs'|] eqn:Ecs; cbn.
    + split; [discriminate |]. intros n' [= <-].
      cbn [Dom.tags_of]. rewrite filter_cons, decide_False by exact Hnm.
      by apply Hsome.
    + split; [intros _; by apply Hnone | discriminate].
Qed.

Lemma insert_in_first_head_heads (d : soup) :
  (Rewrite.insert_in_first_head b d = None → find_all_named "head" d = [])
  ∧ (∀ d', Rewrite.insert_in_first_head b d = Some d' →
       ∃ a cs rest rest',
         find_all_named "head" d = Tag "head" a cs :: rest
         ∧ find_all_named "head" d' = Tag "head" a (b :: cs) :: rest').
Proof.
  unfold find_all_named, Dom.find_all.
  induction d as [|c r [IH1 IH2]]; [split; [reflexivity | discriminate] |].
  destruct (insert_in_head_heads c) as [Hc1 Hc2].
  cbn [flat_map Rewrite.insert_in_first_head]. rewrite filter_app.
  destruct (Rewrite.insert_in_head b c) as [c'|] eqn:Ec.
  - split; [discriminate |]. intros d' [= <-].
    destruct (Hc2 c' eq_refl) as (a' & cs0 & rest & rest' & E1 & E2).
    cbn [flat_map]. rewrite filter_app, E1, E2.
    eexists a', cs0, _, _. split; reflexivity.
  - rewrite (Hc1 eq_refl). cbn [app].
    destruct (Rewrite.insert_in_first_head b r) as [r'|] eqn:Er; cbn.
    + split; [discriminate |]. intros d' [= <-].
      destruct (IH2 r' eq_refl) as (a' & cs0 & rest & rest' & E1 & E2).
      cbn [flat_map]. rewrite filter_app, (Hc1 eq_refl), E1, E2.
      eexists a', cs0, _, _. split; reflexivity.
    + split; [intros _; by apply IH1 | discriminate].
Qed.

End AddBaseFacts.

Lemma add_base_cases (url : string) (d : soup) :
  (find_all_named "head" d = []
   ∧ Rewrite.add_base url d = Tag "head" ∅ [Tag "base" {[ "href" := url ]} []] :: d)
  ∨ (∃ a cs rest rest',
       find_all_named "head" d = Tag "head" a cs :: rest
       ∧ find_all_named "head" (Rewrite.add_base url d)
         = Tag "head" a (Tag "base" {[ "href" := url ]} [] :: cs) :: rest').
Proof.
  unfold Rewrite.add_base.
  destruct (insert_in_first_head_heads (Tag "base" {[ "href" := url ]} []) d) as [H1 H2].
  destruct (Rewrite.insert_in_first_head _ d) as [d'|] eqn:E.
  - right. by apply H2.
  - left. split; [by apply H1 | reflexivity].
Qed.

(** X6. Lines 175-179 make the base tag for [url] the first child of the
    first [head] tag of the document; when the document has no [head] tag, a
    new empty one is put first in the document and receives the base tag. *)
Theorem add_base_first_in_head (url : string) (d : soup) :
  let base := Tag "base" {[ "href" := url ]} [] in
  (find_all_named "head" d = []
   ∧ Rewrite.add_base url d = Tag "head" ∅ [base] :: d)
  ∨ (∃ a cs rest rest',
       find_all_named "head" d = Tag "head" a cs :: rest
       ∧ find_all_named "head" (Rewrite.add_base url d) = Tag "head" a (base :: cs) :: rest').
Proof. intros base. apply add_base_cases. Qed.

(** * Further properties of the feature extractor *)

Section BlockFacts.

(** The loop with [break] sets the flag exactly when some element is a hit. *)
Lemma mixed_loop_existsb (els : list node) (f : features) :
  mixed_loop els f = if existsb mixed_hit els then set_mixedContent true f else f.
Proof.
  induction els as [|el els IH]; cbn [mixed_loop existsb]; [reflexivity |].
  destruct (mixed_hit el); [reflexivity | exact IH].
Qed.


(** Counting loops: a fold that adds one to a key for the items that pass a
    test adds the number of such items. *)
Lemma scripts_fold (ss : list node) (f : features) :
  fold_left (λ f s, script_step s f) ss f
  = set_dataURIScripts
      (dataURIScripts f
       + Z.of_nat (length (filter (λ s, is_inline_script s && data_uri_search (get_text s) = true) ss)))
      (set_suspiciousInlineJS
         (suspiciousInlineJS f
          + Z.of_nat (length (filter (λ s, is_inline_script s && susp_re_search (get_text s) = true) ss)))
         f).
Proof.
  revert f. induction ss as [|s ss IH]; intros f.
  - destruct f; cbn. by rewrite !Z.add_0_r.
  - cbn [fold_left]. rewrite IH, !filter_cons. unfold script_step.
    destruct (is_inline_script s); cbn [andb].
    + destruct (susp_re_search (get_text s)), (data_uri_search (get_text s));
        repeat case_decide; try done;
        destruct f; unfold set_dataURIScripts, set_suspiciousInlineJS;
        cbn -[Z.add Z.of_nat]; f_equal; lia.
    + rewrite !decide_False by discriminate. reflexivity.
Qed.

Lemma iframes_fold (l : list node) (f : features) :
  fold_left
    (λ f i, if iframe_hidden i then set_hiddenIframes (hiddenIframes f + 1) f else f) l f
  = set_hiddenIframes
      (hiddenIframes f + Z.of_nat (length (filter (λ i, iframe_hidden i = true) l))) f.
Proof.
  revert f. induction l as [|i l IH]; intros f.
  - destruct f; cbn. by rewrite Z.add_0_r.
  - cbn [fold_left]. rewrite IH, filter_cons.
    destruct (iframe_hidden i); case_decide; try done.
    destruct f; unfold set_hiddenIframes; cbn -[Z.add Z.of_nat]; f_equal; lia.
Qed.

End BlockFacts.

Section LinkFacts.

Variable urljoin : string → string → option string.
Variable urlparse : string → option ParseResult.

Lemma link_checks_add (download : bool) (href host : string) (f : features) :
  link_checks download href host f
  = add_links
      (if bool_decide (host ∈ SHORTENERS) then 1 else 0)
      (if IPv4.matches host then 1 else 0)
      (if existsb (λ t, PyStr.endswith host t) (elements SUSP_TLDS) then 1 else 0)
      (if PyStr.contains "base64," (PyStr.lower href) then 1 else 0)
      (if download || existsb (λ x, PyStr.endswith (PyStr.lower href) x) DL_EXTS
       then [href] else [])
      f.
Proof.
  unfold link_checks, add_links.
  destruct (bool_decide (host ∈ SHORTENERS)), (IPv4.matches host),
    (existsb (λ t, PyStr.endswith host t) (elements SUSP_TLDS)),
    (PyStr.contains "base64," (PyStr.lower href)),
    (download || existsb (λ x, PyStr.endswith (PyStr.lower href) x) DL_EXTS);
    destruct f; cbn -[Z.add]; rewrite ?Z.add_0_r, ?app_nil_r; reflexivity.
Qed.

Lemma add_links_zero (f : features) : add_links 0 0 0 0 [] f = f.
Proof. destruct f; unfold add_links; cbn. by rewrite !Z.add_0_r, app_nil_r. Qed.

Lemma add_links_add (a1 a2 a3 a4 b1 b2 b3 b4 : Z) (l k : list string) (f : features) :
  add_links b1 b2 b3 b4 k (add_links a1 a2 a3 a4 l f)
  = add_links (a1 + b1) (a2 + b2) (a3 + b3) (a4 + b4) (l ++ k) f.
Proof.
  destruct f; unfold add_links; cbn -[Z.add]. rewrite <- app_assoc. f_equal; lia.
Qed.

(** One anchor adds at most one to each counter and at most one URL. *)
Lemma link_step_add (page_url : string) (a : node) (f f' : features) :
  link_step urljoin urlparse page_url a f = Some f' →
  ∃ n1 n2 n3 n4 l,
    f' = add_links n1 n2 n3 n4 l f
    ∧ 0 <= n1 <= 1 ∧ 0 <= n2 <= 1 ∧ 0 <= n3 <= 1 ∧ 0 <= n4 <= 1
    ∧ (length l ≤ 1)%nat.
Proof.
  unfold link_step.
  destruct (normalize_url urljoin page_url _) as [href|].
  2: { intros [= <-]. exists 0, 0, 0, 0, []. rewrite add_links_zero. cbn. repeat split; lia. }
  case_bool_decide.
  { intros [= <-]. exists 0, 0, 0, 0, []. rewrite add_links_zero. cbn. repeat split; lia. }
  destruct (urlparse href) as [p|]; cbn; [| discriminate].
  intros [= <-]. rewrite link_checks_add. eexists _, _, _, _, _. split; [reflexivity |].
  repeat split; repeat case_match; cbn; lia.
Qed.

Lemma links_loop_add (page_url : string) (anchors : list node) (f f' : features) :
  links_loop urljoin urlparse page_url anchors f = Some f' →
  ∃ n1 n2 n3 n4 l,
    f' = add_links n1 n2 n3 n4 l f
    ∧ 0 <= n1 <= Z.of_nat (length anchors) ∧ 0 <= n2 <= Z.of_nat (length anchors)
    ∧ 0 <= n3 <= Z.of_nat (length anchors) ∧ 0 <= n4 <= Z.of_nat (length anchors)
    ∧ (length l ≤ length anchors)%nat.
Proof.
  revert f. induction anchors as [|a rest IH]; intros f; cbn [links_loop].
  - intros [= <-]. exists 0, 0, 0, 0, []. rewrite add_links_zero. cbn. repeat split; lia.
  - destruct (link_step urljoin urlparse page_url a f) as [f1|] eqn:E1; cbn; [| discriminate].
    intros E2. apply link_step_add in E1 as (a1 & a2 & a3 & a4 & l & -> & ? & ? & ? & ? & ?).
    apply IH in E2 as (b1 & b2 & b3 & b4 & k & -> & ? & ? & ? & ? & ?).
    rewrite add_links_add. eexists _, _, _, _, _. split; [reflexivity |].
    rewrite length_app. cbn [length]. repeat split; lia.
Qed.

(** An exception of [urlparse] on one anchor ends the whole loop. *)
Lemma links_loop_raises (page_url href : string) (a : node) (anchors : list node)
    (f : features) :
  a ∈ anchors →
  urljoin page_url (Dom.get_default a "href" "") = Some href → href ≠ "" →
  urlparse href = None →
  links_loop urljoin urlparse page_url anchors f = None.
Proof.
  intros Hin Hj Hne Hp. revert f.
  induction anchors as [|x rest IH]; intros f; [by apply elem_of_nil in Hin |].
  cbn [links_loop]. apply elem_of_cons in Hin as [<- | Hin].
  - unfold link_step, normalize_url. rewrite Hj, bool_decide_eq_false_2, Hp by done.
    reflexivity.
  - destruct (link_step urljoin urlparse page_url x f) as [f1|]; cbn; [| reflexivity].
    by apply IH.
Qed.

(** Without such an exception the loop ends normally. *)
Lemma links_loop_returns (page_url : string) (anchors : list node) (f : features) :
  (∀ a href, a ∈ anchors →
     urljoin page_url (Dom.get_default a "href" "") = Some href → href ≠ "" →
     is_Some (urlparse href)) →
  is_Some (links_loop urljoin urlparse page_url anchors f).
Proof.
  revert f. induction anchors as [|x rest IH]; intros f H; cbn [links_loop]; [by eexists |].
  assert (is_Some (link_step urljoin urlparse page_url x f)) as [f1 E1].
  { unfold link_step, normalize_url.
    destruct (urljoin page_url _) as [href|] eqn:Ej; [| by eexists].
    case_bool_decide as Hne; [by eexists |].
    destruct (H x href ltac:(left) Ej Hne) as [p ->]. by eexists. }
  rewrite E1. cbn. apply IH. intros a href Hin. apply H. by right.
Qed.

End LinkFacts.

Section ScanFacts.

Variable parse : string → option soup.
Variable urljoin : string → string → option string.
Variable urlparse : string → option ParseResult.
Variable origin_of_None : option string.

Lemma forms_fold (page_url : string) (l : list node) (f : features) :
  fold_left (λ f fm, form_step urljoin page_url fm f) l f
  = set_formsToHTTP
      (formsToHTTP f
       + Z.of_nat (length (filter (λ fm, form_to_http urljoin page_url fm = true) l))) f.
Proof.
  revert f. induction l as [|fm l IH]; intros f.
  - destruct f; cbn. by rewrite Z.add_0_r.
  - cbn [fold_left]. rewrite IH, filter_cons. unfold form_step.
    destruct (form_to_http urljoin page_url fm); case_decide; try done.
    destruct f; unfold set_formsToHTTP; cbn -[Z.add Z.of_nat]; f_equal; lia.
Qed.

Lemma third_party_fold (page_url origin : string) (l : list node) (f : features) :
  fold_left (λ f s, third_party_step urljoin urlparse origin_of_None page_url origin s f) l f
  = set_thirdPartyScripts
      (thirdPartyScripts f
       + Z.of_nat
           (length
              (filter
                 (λ s, is_third_party urljoin urlparse origin_of_None page_url origin s = true)
                 l)))
      f.
Proof.
  revert f. induction l as [|s l IH]; intros f.
  - destruct f; cbn. by rewrite Z.add_0_r.
  - cbn [fold_left]. rewrite IH, filter_cons. unfold third_party_step.
    destruct (is_third_party urljoin urlparse origin_of_None page_url origin s);
      case_decide; try done.
    destruct f; unfold set_thirdPartyScripts; cbn -[Z.add Z.of_nat]; f_equal; lia.
Qed.

Lemma inline_inner_set (el : node) (f : features) :
  inline_inner el f
  = set_inlineHandlers
      (inlineHandlers f + Z.of_nat (size (dom (Dom.attrs el) ∩ INLINE_EVENTS))) f.
Proof.
  unfold inline_inner. rewrite <- filter_elements_size.
  generalize (elements INLINE_EVENTS) as l. intros l. revert f.
  induction l as [|a l IH]; intros f.
  - destruct f; cbn. by rewrite Z.add_0_r.
  - cbn [fold_left]. rewrite IH, filter_cons. unfold Dom.has_attr.
    case_bool_decide; case_decide; try done.
    destruct f; unfold set_inlineHandlers; cbn -[Z.add Z.of_nat]; f_equal; lia.
Qed.

Lemma inline_outer_set (els : list node) (f : features) :
  ∃ n, (n ≤ 10 * length els)%nat
       ∧ fold_left (λ f el, inline_inner el f) els f
         = set_inlineHandlers (inlineHandlers f + Z.of_nat n) f.
Proof.
  revert f. induction els as [|el els IH]; intros f.
  - exists 0%nat. split; [done |]. destruct f; cbn. by rewrite Z.add_0_r.
  - cbn [fold_left]. rewrite inline_inner_set.
    destruct (IH (set_inlineHandlers
                    (inlineHandlers f + Z.of_nat (size (dom (Dom.attrs el) ∩ INLINE_EVENTS)))
                    f)) as (n & Hn & ->).
    exists (size (dom (Dom.attrs el) ∩ INLINE_EVENTS) + n)%nat. split.
    + assert (size (dom (Dom.attrs el) ∩ INLINE_EVENTS) ≤ size INLINE_EVENTS)%nat as Hle
        by apply subseteq_size, intersection_subseteq_r.
      change (size INLINE_EVENTS) with 10%nat in Hle. cbn [length]. lia.
    + destruct f; unfold set_inlineHandlers; cbn -[Z.add Z.of_nat]; f_equal; lia.
Qed.

End ScanFacts.


(** X8. On the initial vector, [metaRefresh] is set exactly when some [meta]
    tag has an [http-equiv] attribute whose value is "refresh" or "Refresh",
    spelled exactly so. *)
Theorem metaRefresh_set_iff (d : soup) :
  metaRefresh (collect_metaRefresh d f0) = true
  ↔ ∃ el, el ∈ Dom.find_all d ∧ Dom.name el = "meta"
          ∧ (Dom.get el "http-equiv" = Some "refresh"
             ∨ Dom.get el "http-equiv" = Some "Refresh").
Proof.
  rewrite collect_metaRefresh_true. split; [| by right].
  intros [H | H]; [discriminate H | exact H].
Qed.


(** X10. When the anchor loop returns, it has only added to its own keys:
    each of [shortenerLinks], [ipLinks], [suspiciousTLDs] and [base64InLinks]
    grew by at most the number of anchors with an [href], [execDownloads] got
    at most that many URLs appended after the ones it had, and no other key
    changed. *)
Theorem collect_links_bounds
    (urljoin : string → string → option string)
    (urlparse : string → option ParseResult)
    (page_url : string) (d : soup) (f f' : features)
    (Hret : collect_links urljoin urlparse page_url d f = Some f') :
  ∃ n1 n2 n3 n4 l,
    f' = add_links n1 n2 n3 n4 l f
    ∧ 0 <= n1 <= Z.of_nat (length (Dom.select Dom.sel_a_href d))
    ∧ 0 <= n2 <= Z.of_nat (length (Dom.select Dom.sel_a_href d))
    ∧ 0 <= n3 <= Z.of_nat (length (Dom.select Dom.sel_a_href d))
    ∧ 0 <= n4 <= Z.of_nat (length (Dom.select Dom.sel_a_href d))
    ∧ (length l ≤ length (Dom.select Dom.sel_a_href d))%nat.
Proof. by apply links_loop_add in Hret. Qed.

Lemma collect_links_bounds_witness :
  ∃ n1 n2 n3 n4 l,
    set_execDownloads ["http://evil.zip"] (set_suspiciousTLDs 1 f0)
    = add_links n1 n2 n3 n4 l f0
    ∧ 0 <= n1 <= Z.of_nat (length (Dom.select Dom.sel_a_href Examples.zip_anchor))
    ∧ 0 <= n2 <= Z.of_nat (length (Dom.select Dom.sel_a_href Examples.zip_anchor))
    ∧ 0 <= n3 <= Z.of_nat (length (Dom.select Dom.sel_a_href Examples.zip_anchor))
    ∧ 0 <= n4 <= Z.of_nat (length (Dom.select Dom.sel_a_href Examples.zip_anchor))
    ∧ (length l ≤ length (Dom.select Dom.sel_a_href Examples.zip_anchor))%nat.
Proof.
  apply (collect_links_bounds Examples.urljoin_abs Examples.urlparse_table
           "https://site.test/" Examples.zip_anchor f0).
  vm_compute. reflexivity.
Defined.

(** X11. The anchor loop returns exactly when [urlparse] raises on none of
    the resolved, non-empty links of the anchors with an [href]; one such
    exception makes the whole loop raise. Links that [urljoin] cannot
    resolve and links that resolve to the empty string never make it
    raise. *)
Theorem collect_links_returns_iff
    (urljoin : string → string → option string)
    (urlparse : string → option ParseResult)
    (page_url : string) (d : soup) (f : features) :
  is_Some (collect_links urljoin urlparse page_url d f)
  ↔ ∀ a href, a ∈ Dom.select Dom.sel_a_href d →
      urljoin page_url (Dom.get_default a "href" "") = Some href → href ≠ "" →
      is_Some (urlparse href).
Proof.
  unfold collect_links. split.
  - intros [f' Hf'] a href Hin Hj Hne.
    destruct (urlparse href) as [p|] eqn:Hp; [by eexists |].
    rewrite (links_loop_raises urljoin urlparse page_url href a _ f Hin Hj Hne Hp) in Hf'.
    discriminate Hf'.
  - apply links_loop_returns.
Qed.

Section CollectFacts.

Variable parse : string → option soup.
Variable urljoin : string → string → option string.
Variable urlparse : string → option ParseResult.
Variable origin_of_None : option string.

(** The blocks of [collect_features] in the order they run. *)
Lemma collect_features_blocks (page_url html : string) (f : features) :
  collect_features parse urljoin urlparse origin_of_None page_url html = Some f
  ↔ ∃ d po f1,
      parse html = Some d ∧ urlparse page_url = Some po
      ∧ collect_links urljoin urlparse page_url d
          (collect_scripts d
             (collect_inlineHandlers d
                (collect_metaRefresh d (collect_mixedContent page_url d f0)))) = Some f1
      ∧ f = collect_text html
              (collect_thirdParty urljoin urlparse origin_of_None page_url (origin_text po) d
                 (collect_iframes d (collect_forms urljoin page_url d f1))).
Proof.
  unfold collect_features. split.
  - destruct (parse html) as [d|]; cbn; [| discriminate].
    destruct (urlparse page_url) as [po|]; cbn; [| discriminate].
    destruct (collect_links _ _ _ _ _) as [f1|] eqn:E; cbn; [| discriminate].
    intros [= <-]. by exists d, po, f1.
  - intros (d & po & f1 & -> & -> & E & ->). cbn. rewrite E. reflexivity.
Qed.

Lemma collect_text_cases (html : string) (f : features) :
  collect_text html f
  = set_fingerprintingAPIs
      (if existsb (λ k, PyStr.contains k html) fingerprint_names
       then 1 else fingerprintingAPIs f)
      (set_onBeforeUnload
         (PyStr.contains "onbeforeunload" (PyStr.lower html) || onBeforeUnload f) f).
Proof.
  unfold collect_text.
  destruct (PyStr.contains "onbeforeunload" (PyStr.lower html)),
    (existsb (λ k, PyStr.contains k html) fingerprint_names); by destruct f.
Qed.

End CollectFacts.

(** X12. What a returned feature vector always satisfies, [d] being the
    parsed page: every counter is at least 0 and at most the number of tags
    it is counted over (ten per tag for [inlineHandlers]), [execDownloads]
    has at most one URL per anchor, [fingerprintingAPIs] is 0 or 1,
    [mixedContent] is only set for an "https:" page, and the two textual
    keys say exactly whether the page text holds the unload token and one of
    the fingerprinting names. *)
Theorem collect_features_invariants
    (parse : string → option soup)
    (urljoin : string → string → option string)
    (urlparse : string → option ParseResult)
    (origin_of_None : option string)
    (page_url html : string) (f : features)
    (Hret : collect_features parse urljoin urlparse origin_of_None page_url html = Some f) :
  ∃ d, parse html = Some d
    ∧ (mixedContent f = true → PyStr.startswith (PyStr.lower page_url) "https:" = true)
    ∧ 0 <= inlineHandlers f <= 10 * Z.of_nat (length (Dom.find_all d))
    ∧ 0 <= suspiciousInlineJS f <= Z.of_nat (length (find_all_named "script" d))
    ∧ 0 <= dataURIScripts f <= Z.of_nat (length (find_all_named "script" d))
    ∧ 0 <= shortenerLinks f <= Z.of_nat (length (Dom.select Dom.sel_a_href d))
    ∧ 0 <= ipLinks f <= Z.of_nat (length (Dom.select Dom.sel_a_href d))
    ∧ 0 <= suspiciousTLDs f <= Z.of_nat (length (Dom.select Dom.sel_a_href d))
    ∧ 0 <= base64InLinks f <= Z.of_nat (length (Dom.select Dom.sel_a_href d))
    ∧ (length (execDownloads f) ≤ length (Dom.select Dom.sel_a_href d))%nat
    ∧ 0 <= formsToHTTP f <= Z.of_nat (length (Dom.select sel_form_action d))
    ∧ 0 <= hiddenIframes f <= Z.of_nat (length (find_all_named "iframe" d))
    ∧ 0 <= thirdPartyScripts f <= Z.of_nat (length (find_all_named "script" d))
    ∧ (fingerprintingAPIs f = 0 ∨ fingerprintingAPIs f = 1)
    ∧ (fingerprintingAPIs f = 1
       ↔ existsb (λ k, PyStr.contains k html) fingerprint_names = true)
    ∧ onBeforeUnload f = PyStr.contains "onbeforeunload" (PyStr.lower html).
Proof.
  apply collect_features_blocks in Hret as (d & po & f1 & Hd & Hpo & Hlinks & ->).
  exists d. split; [exact Hd |].
  apply links_loop_add in Hlinks as (n1 & n2 & n3 & n4 & l & -> & ? & ? & ? & ? & ?).
  rewrite collect_text_cases.
  unfold collect_thirdParty, collect_iframes, collect_forms, collect_scripts,
    collect_inlineHandlers.
  rewrite third_party_fold, iframes_fold, forms_fold, scripts_fold.
  destruct (inline_outer_set (Dom.find_all d)
              (collect_metaRefresh d (collect_mixedContent page_url d f0)))
    as (ni & Hni & ->).
  pose proof (length_filter
    (λ s, is_third_party urljoin urlparse origin_of_None page_url (origin_text po) s = true)
    (filter (λ el, Dom.has_attr el "src" = true) (find_all_named "script" d))) as Htp.
  pose proof (length_filter (λ el, Dom.has_attr el "src" = true)
                (find_all_named "script" d)) as Hsrc.
  pose proof (length_filter (λ i, iframe_hidden i = true) (find_all_named "iframe" d)) as Hif.
  pose proof (length_filter (λ fm, form_to_http urljoin page_url fm = true)
                (Dom.select sel_form_action d)) as Hfm.
  pose proof (length_filter
    (λ s, is_inline_script s && data_uri_search (get_text s) = true)
    (find_all_named "script" d)) as Hdu.
  pose proof (length_filter
    (λ s, is_inline_script s && susp_re_search (get_text s) = true)
    (find_all_named "script" d)) as Hjs.
  assert (∃ mc mr, collect_metaRefresh d (collect_mixedContent page_url d f0)
                   = set_metaRefresh mr (set_mixedContent mc f0)
                   ∧ (mc = true → PyStr.startswith (PyStr.lower page_url) "https:" = true))
    as (mc & mr & -> & Hmc).
  { unfold collect_metaRefresh, collect_mixedContent.
    destruct (PyStr.startswith (PyStr.lower page_url) "https:").
    - rewrite mixed_loop_existsb.
      destruct (existsb _ _), (Dom.select_one _ d);
        [by exists true, true | by exists true, false
        | by exists false, true | by exists false, false].
    - destruct (Dom.select_one _ d); [exists false, true | exists false, false];
        (split; [reflexivity | discriminate]). }
  set (efp := existsb (λ k, PyStr.contains k html) fingerprint_names).
  set (eub := PyStr.contains "onbeforeunload" (PyStr.lower html)).
  clearbody efp eub.
  cbn -[Z.add Z.of_nat Z.mul length filter].
  repeat match goal with |- _ ∧ _ => split end; try lia; try exact Hmc.
  - destruct efp; [by right | by left].
  - destruct efp; split; intros; (reflexivity || discriminate).
  - apply orb_false_r.
Qed.

Lemma collect_features_invariants_witness :
  ∃ d, Instances.parse_table Instances.zip_page = Some d
    ∧ (mixedContent Instances.zip_features = true
       → PyStr.startswith (PyStr.lower "https://site.test/") "https:" = true)
    ∧ 0 <= inlineHandlers Instances.zip_features <= 10 * Z.of_nat (length (Dom.find_all d))
    ∧ 0 <= suspiciousInlineJS Instances.zip_features
        <= Z.of_nat (length (find_all_named "script" d))
    ∧ 0 <= dataURIScripts Instances.zip_features
        <= Z.of_nat (length (find_all_named "script" d))
    ∧ 0 <= shortenerLinks Instances.zip_features
        <= Z.of_nat (length (Dom.select Dom.sel_a_href d))
    ∧ 0 <= ipLinks Instances.zip_features <= Z.of_nat (length (Dom.select Dom.sel_a_href d))
    ∧ 0 <= suspiciousTLDs Instances.zip_features
        <= Z.of_nat (length (Dom.select Dom.sel_a_href d))
    ∧ 0 <= base64InLinks Instances.zip_features
        <= Z.of_nat (length (Dom.select Dom.sel_a_href d))
    ∧ (length (execDownloads Instances.zip_features)
       ≤ length (Dom.select Dom.sel_a_href d))%nat
    ∧ 0 <= formsToHTTP Instances.zip_features
        <= Z.of_nat (length (Dom.select sel_form_action d))
    ∧ 0 <= hiddenIframes Instances.zip_features
        <= Z.of_nat (length (find_all_named "iframe" d))
    ∧ 0 <= thirdPartyScripts Instances.zip_features
        <= Z.of_nat (length (find_all_named "script" d))
    ∧ (fingerprintingAPIs Instances.zip_features = 0
       ∨ fingerprintingAPIs Instances.zip_features = 1)
    ∧ (fingerprintingAPIs Instances.zip_features = 1
       ↔ existsb (λ k, PyStr.contains k Instances.zip_page) fingerprint_names = true)
    ∧ onBeforeUnload Instances.zip_features
      = PyStr.contains "onbeforeunload" (PyStr.lower Instances.zip_page).
Proof.
  apply (collect_features_invariants Instances.parse_table Examples.urljoin_abs
           Instances.urlparse_table None "https://site.test/" Instances.zip_page
           Instances.zip_features).
  vm_compute. reflexivity.
Defined.

Section NoTags.

(** Every block that walks the document does nothing on a document
    without tags. *)
Lemma find_all_nil_select (sel : node → bool) (d : soup) :
  Dom.find_all d = [] → Dom.select sel d = [].
Proof. unfold Dom.select. by intros ->. Qed.

Lemma find_all_nil_named (nm : string) (d : soup) :
  Dom.find_all d = [] → find_all_named nm d = [].
Proof. unfold find_all_named. by intros ->. Qed.

End NoTags.

Lemma collect_features_no_tags_eq
    (parse : string → option soup)
    (urljoin : string → string → option string)
    (urlparse : string → option ParseResult)
    (origin_of_None : option string)
    (page_url html : string) (d : soup) (po : ParseResult) :
  parse html = Some d → Dom.find_all d = [] → urlparse page_url = Some po →
  collect_features parse urljoin urlparse origin_of_None page_url html
  = Some (collect_text html f0).
Proof.
  intros Hparse Hempty Hurl.
  apply collect_features_blocks. exists d, po, f0.
  split; [exact Hparse |]. split; [exact Hurl |].
  unfold collect_links, collect_scripts, collect_inlineHandlers, collect_metaRefresh,
    collect_mixedContent, collect_thirdParty, collect_iframes, collect_forms,
    Dom.select_one.
  rewrite !(find_all_nil_select _ d Hempty), !(find_all_nil_named _ d Hempty), Hempty.
  cbn. split; [| reflexivity]. by destruct (PyStr.startswith _ _).
Qed.

(** X13. A page whose parsed document has no tag at all, such as an empty
    page or plain text, gets the initial vector changed by the two textual
    tests only, whatever the page URL is: no structural key is set. *)
Theorem collect_features_no_tags
    (parse : string → option soup)
    (urljoin : string → string → option string)
    (urlparse : string → option ParseResult)
    (origin_of_None : option string)
    (page_url html : string) (d : soup) (po : ParseResult)
    (Hparse : parse html = Some d) (Hempty : Dom.find_all d = [])
    (Hurl : urlparse page_url = Some po) :
  collect_features parse urljoin urlparse origin_of_None page_url html
  = Some (collect_text html f0).
Proof. by apply (collect_features_no_tags_eq _ _ _ _ _ _ d po). Qed.

Lemma collect_features_no_tags_witness :
  collect_features Instances.parse_text Examples.urljoin_abs Instances.urlparse_table None
    "https://site.test/" "window.onbeforeunload = f"
  = Some (collect_text "window.onbeforeunload = f" f0).
Proof.
  apply (collect_features_no_tags Instances.parse_text Examples.urljoin_abs
           Instances.urlparse_table None "https://site.test/" "window.onbeforeunload = f"
           [NavigableString "window.onbeforeunload = f"]
           (mkParseResult "https" "site.test" (Some "site.test"))).
  - reflexivity.
  - reflexivity.
  - reflexivity.
Defined.

(** X14. [collect_features] returns a vector exactly when the parser accepts
    the page, [urlparse] accepts the page URL, and [urlparse] accepts every
    resolved, non-empty link of an anchor with an [href]; in every other case
    an exception leaves the function. Nothing else in the page can make the
    extraction fail. *)
Theorem collect_features_returns_iff
    (parse : string → option soup)
    (urljoin : string → string → option string)
    (urlparse : string → option ParseResult)
    (origin_of_None : option string)
    (page_url html : string) :
  is_Some (collect_features parse urljoin urlparse origin_of_None page_url html)
  ↔ ∃ d, parse html = Some d
         ∧ is_Some (urlparse page_url)
         ∧ ∀ a href, a ∈ Dom.select Dom.sel_a_href d →
             urljoin page_url (Dom.get_default a "href" "") = Some href → href ≠ "" →
             is_Some (urlparse href).
Proof.
  split.
  - intros [f Hf]. apply collect_features_blocks in Hf as (d & po & f1 & Hd & Hpo & Hl & _).
    exists d. split; [exact Hd |]. split; [by eexists |].
    intros a href Hin Hj Hne.
    destruct (urlparse href) as [p|] eqn:Hp; [by eexists |].
    unfold collect_links in Hl.
    rewrite (links_loop_raises urljoin urlparse page_url href a _ _ Hin Hj Hne Hp) in Hl.
    discriminate Hl.
  - intros (d & Hd & [po Hpo] & Hall).
    destruct (links_loop_returns urljoin urlparse page_url (Dom.select Dom.sel_a_href d)
                (collect_scripts d
                   (collect_inlineHandlers d
                      (collect_metaRefresh d (collect_mixedContent page_url d f0))))
                Hall) as [f1 Hf1].
    eexists. apply collect_features_blocks. exists d, po, f1.
    split; [exact Hd |]. split; [exact Hpo |]. split; [exact Hf1 | reflexivity].
Qed.

(** X15. A page whose text holds "onbeforeunload" in any casing is never
    scored 0: the returned vector has [onBeforeUnload] set, its issues hold
    "onbeforeunload trap (+10)" and its score is at least 10. *)
Theorem unload_token_is_scored
    (parse : string → option soup)
    (urljoin : string → string → option string)
    (urlparse : string → option ParseResult)
    (origin_of_None : option string)
    (page_url html : string) (f : features)
    (Htoken : PyStr.contains "onbeforeunload" (PyStr.lower html) = true)
    (Hret : collect_features parse urljoin urlparse origin_of_None page_url html = Some f) :
  onBeforeUnload f = true
  ∧ "onbeforeunload trap (+10)" ∈ issues f
  ∧ 10 <= score f.
Proof.
  assert (onBeforeUnload f = true) as Hflag.
  { apply collect_features_blocks in Hret as (d & po & f1 & _ & _ & _ & ->).
    rewrite collect_text_cases, Htoken. reflexivity. }
  split; [exact Hflag |].
  assert ("onbeforeunload trap (+10)" ∈ issues f) as Hin
    by (apply (finding_in_issues f RuleTable.OnBeforeUnload); exact Hflag).
  split; [exact Hin |].
  pose proof (total_bounds (RuleTable.triggers f) RuleTable.declaration_order
                declaration_order_NoDup) as [Hlo _].
  rewrite <- issues_findings in Hlo.
  unfold score. rewrite score_features_table. unfold RuleTable.table_score. cbn [fst].
  destruct (issues f); [by apply elem_of_nil in Hin |]. cbn [length] in Hlo. lia.
Qed.

Lemma unload_token_is_scored_witness :
  onBeforeUnload (collect_text "window.onbeforeunload = f" f0) = true
  ∧ "onbeforeunload trap (+10)" ∈ issues (collect_text "window.onbeforeunload = f" f0)
  ∧ 10 <= score (collect_text "window.onbeforeunload = f" f0).
Proof.
  apply (unload_token_is_scored Instances.parse_text Examples.urljoin_abs
           Instances.urlparse_table None "https://site.test/" "window.onbeforeunload = f").
  - vm_compute. reflexivity.
  - vm_compute. reflexivity.
Defined.

(** * Properties of the request handlers *)

Section HandlerFacts.

Lemma prefix_semicolon (c : ascii) (s : string) :
  String.prefix ";" (String c s) = Ascii.eqb c ";".
Proof.
  change (String.prefix ";" (String c s))
    with (if ascii_dec ";" c then String.prefix "" s else false).
  destruct (ascii_dec ";" c) as [<-|Hne].
  - by destruct s.
  - symmetry. apply Ascii.eqb_neq. congruence.
Qed.

Lemma contains_semicolon_cons (c : ascii) (s : string) :
  PyStr.contains ";" (String c s) = Ascii.eqb c ";" || PyStr.contains ";" s.
Proof.
  change (PyStr.contains ";" (String c s))
    with (String.prefix ";" (String c s) || PyStr.contains ";" s).
  by rewrite prefix_semicolon.
Qed.

Lemma before_semicolon_clean (s : string) :
  PyStr.contains ";" (before_semicolon s) = false.
Proof.
  induction s as [|c s IH]; [reflexivity |]. cbn [before_semicolon].
  destruct (Ascii.eqb c ";") eqn:E; [reflexivity |].
  by rewrite contains_semicolon_cons, E, IH.
Qed.

Lemma before_semicolon_id (s : string) :
  PyStr.contains ";" s = false → before_semicolon s = s.
Proof.
  induction s as [|c s IH]; [reflexivity |].
  rewrite contains_semicolon_cons. intros [E1 E2]%orb_false_iff.
  cbn [before_semicolon]. by rewrite E1, IH.
Qed.

Lemma before_semicolon_split (s : string) :
  PyStr.contains ";" s = true →
  ∃ rest, s = before_semicolon s +:+ String ";" rest.
Proof.
  induction s as [|c s IH]; [discriminate |].
  rewrite contains_semicolon_cons. cbn [before_semicolon].
  destruct (Ascii.eqb c ";") eqn:E.
  - intros _. apply Ascii.eqb_eq in E as ->. by exists s.
  - cbn [orb]. intros [rest Hrest]%IH. exists rest.
    change (String c s = String c (before_semicolon s +:+ String ";" rest)).
    by rewrite <- Hrest.
Qed.



End HandlerFacts.

(** X16. [s.split(";")[0]], which gives the MIME type of the sandbox
    response: the result holds no semicolon; a text without semicolon is
    returned whole, and otherwise the text is the result, a semicolon and a
    rest. The default content type gives "text/html". *)
Theorem before_semicolon_splits (s : string) :
  PyStr.contains ";" (before_semicolon s) = false
  ∧ (PyStr.contains ";" s = false → before_semicolon s = s)
  ∧ (PyStr.contains ";" s = true → ∃ rest, s = before_semicolon s +:+ String ";" rest)
  ∧ before_semicolon "text/html; charset=utf-8" = "text/html".
Proof.
  split; [apply before_semicolon_clean |]. split; [apply before_semicolon_id |].
  split; [apply before_semicolon_split | reflexivity].
Qed.







(** * The three host tests exclude each other *)

Section HostTests.











End HostTests.


(** * The counting blocks and whole scans *)

Section CountFacts.


End CountFacts.


(** X23. A page without tags and without the unload token and the
    fingerprinting names scans to the initial vector and is scored 0, Low,
    with no issues, whatever its URL. *)
Theorem clean_page_scores_zero
    (parse : string → option soup)
    (urljoin : string → string → option string)
    (urlparse : string → option ParseResult)
    (origin_of_None : option string)
    (page_url html : string) (d : soup) (po : ParseResult)
    (Hparse : parse html = Some d) (Hempty : Dom.find_all d = [])
    (Hurl : urlparse page_url = Some po)
    (Hunload : PyStr.contains "onbeforeunload" (PyStr.lower html) = false)
    (Hfp : existsb (λ k, PyStr.contains k html) fingerprint_names = false) :
  collect_features parse urljoin urlparse origin_of_None page_url html = Some f0
  ∧ score_features f0 = (0, "Low", []).
Proof.
  split; [| vm_compute; reflexivity].
  rewrite (collect_features_no_tags_eq parse urljoin urlparse origin_of_None page_url html
             d po Hparse Hempty Hurl).
  unfold collect_text. by rewrite Hunload, Hfp.
Qed.

Lemma clean_page_scores_zero_witness :
  collect_features Instances.parse_text Examples.urljoin_abs Instances.urlparse_table None
    "https://site.test/" "hello"
  = Some f0
  ∧ score_features f0 = (0, "Low", []).
Proof.
  apply (clean_page_scores_zero Instances.parse_text Examples.urljoin_abs
           Instances.urlparse_table None "https://site.test/" "hello"
           [NavigableString "hello"] (mkParseResult "https" "site.test" (Some "site.test"))).
  - reflexivity.
  - reflexivity.
  - reflexivity.
  - vm_compute. reflexivity.
  - vm_compute. reflexivity.
Defined.

(** X24. For a document without a [head] tag the whole rewrite is: a new
    [head] holding only the base tag for [url], followed by the document
    without its CSP meta tags. *)
Theorem rewrite_headless_document (url : string) (d : soup)
    (Hnohead : find_all_named "head" d = []) :
  Rewrite.remove_csp_all (Rewrite.add_base url d)
  = Tag "head" ∅ [Tag "base" {[ "href" := url ]} []] :: Rewrite.remove_csp_all d.
Proof.
  destruct (add_base_cases url d) as [[_ ->] | (a & cs & rest & rest' & E & _)].
  - reflexivity.
  - rewrite Hnohead in E. discriminate E.
Qed.

Lemma rewrite_headless_document_witness :
  Rewrite.remove_csp_all (Rewrite.add_base "https://site.test/" [NavigableString "<p"])
  = Tag "head" ∅ [Tag "base" {[ "href" := "https://site.test/" ]} []]
    :: Rewrite.remove_csp_all [NavigableString "<p"].
Proof.
  apply (rewrite_headless_document "https://site.test/" [NavigableString "<p"]).
  reflexivity.
Defined.
